(** * azauth: ordered credential resolution, its cache and the client binder

    A shallow embedding of the Go package [azauth]
    (github.com/alexeldeib/azauth).  The package asks three credential
    sources of the Azure SDK for an authorizer, in a fixed order, keeps one
    authorizer for the resource manager, and installs authorizers on
    [autorest] clients.

    The embedding follows the Go text statement by statement:
    - a Go function that returns [(value, error)] returns a pair whose second
      component is an [option error], [None] being Go's [nil];
    - a pointer field is an [option], [None] being the nil pointer, and a
      dereference of nil panics;
    - calls that leave the process (the credential sources, the log) are
      recorded, in order, in a trace that every computation threads. *)

From Stdlib Require Import String List.
Import ListNotations.

Open Scope string_scope.
Open Scope list_scope.

(** ** Go values shared by the packages *)

(** The values of Go's [error] interface that reach this package: its own
    [NoAuthorizerError{}], and errors built by other packages, which this
    package only ever prints or hands on and which are therefore known by
    their message. *)
Inductive error : Type :=
| NoAuthorizerError
| Foreign (msg : string).

(** [const errorMsg] *)
Definition errorMsg : string := "no authorizer available".

(** [func (e NoAuthorizerError) Error() string]; a foreign error answers with
    its own message. *)
Definition Error (e : error) : string :=
  match e with
  | NoAuthorizerError => errorMsg
  | Foreign msg => msg
  end.

(** The three credential sources of the SDK's [auth] package. *)
Inductive Source : Type := FromFile | FromCLI | FromEnvironment.

Inductive Level : Type := InfoLevel | ErrorLevel.

(** What a computation does outside of the process memory: it asks a
    credential source for an authorizer to a resource, or it writes a log
    entry (level, logger name, structured context, message). *)
Inductive event : Type :=
| Invoke (src : Source) (resource : string)
| Entry (lvl : Level) (logger : string) (context : list (string * string))
        (msg : string).

(** ** Computations: a trace of events, and panics *)

Inductive outcome (A : Type) : Type :=
| Done (a : A)
| Panic (msg : string).
Arguments Done {A} a.
Arguments Panic {A} msg.

Definition M (A : Type) : Type := list event -> outcome A * list event.

Definition ret {A : Type} (a : A) : M A := fun t => (Done a, t).

Definition bind {A B : Type} (m : M A) (k : A -> M B) : M B :=
  fun t =>
    match m t with
    | (Done a, t') => k a t'
    | (Panic msg, t') => (Panic msg, t')
    end.

Definition emit (e : event) : M unit := fun t => (Done tt, t ++ [e]).

Definition panic {A : Type} (msg : string) : M A := fun t => (Panic msg, t).

Definition nilDereference : string :=
  "runtime error: invalid memory address or nil pointer dereference".

(** [*p], or a field or method reached through the pointer [p]. *)
Definition deref {A : Type} (p : option A) : M A :=
  match p with
  | Some a => ret a
  | None => panic nilDereference
  end.

Declare Scope go_scope.
Delimit Scope go_scope with go.
Notation "x <- m ;; k" := (bind m (fun x => k))
  (at level 100, m at next level, right associativity) : go_scope.
Notation "' p <- m ;; k" := (bind m (fun x => match x with p => k end))
  (at level 100, p pattern, m at next level, right associativity) : go_scope.
Notation "m ;; k" := (bind m (fun _ => k))
  (at level 100, right associativity) : go_scope.
Open Scope go_scope.

(** The credential sources asked for during a run, in order. *)
Fixpoint invocations (t : list event) : list (Source * string) :=
  match t with
  | [] => []
  | Invoke src resource :: t' => (src, resource) :: invocations t'
  | Entry _ _ _ _ :: t' => invocations t'
  end.

(** The sources asked, without the resource they were asked for. *)
Definition asked (t : list event) : list Source := map fst (invocations t).

Definition Source_eqb (a b : Source) : bool :=
  match a, b with
  | FromFile, FromFile | FromCLI, FromCLI
  | FromEnvironment, FromEnvironment => true
  | _, _ => false
  end.

(** How many times a source was asked. *)
Definition times (src : Source) (t : list event) : nat :=
  length (filter (Source_eqb src) (asked t)).

(** ** github.com/Azure/go-autorest/autorest *)

Module autorest.
Section Handles.
Variable Handle : Type.

(** [autorest.Authorizer] is an interface: the nil interface or an opaque
    credential provider. *)
Definition Authorizer : Type := option Handle.

(** [autorest.Client], restricted to the two fields the package touches. *)
Record Client : Type := mkClient {
  Client_Authorizer : Authorizer;
  Client_UserAgent : string
}.

(** [func (c *Client) AddToUserAgent(extension string) error] of go-autorest
    (autorest/client.go, in the version go.mod pins):
    for an extension that is not the empty string, [c.UserAgent] becomes
    [fmt.Sprintf("%s %s", c.UserAgent, extension)] and nil is returned; for
    the empty string the client is left alone and the result is
    [fmt.Errorf("Extension was empty, User Agent stayed as %s", c.UserAgent)].
    [c] is the client behind the receiver; the client as the call leaves it
    is handed back with the error. *)
Definition AddToUserAgent (c : Client) (extension : string)
  : M (Client * option error) :=
  if String.eqb extension EmptyString then
    ret (c, Some (Foreign ("Extension was empty, User Agent stayed as "
                             ++ Client_UserAgent c)))
  else
    ret (mkClient (Client_Authorizer c)
                  (Client_UserAgent c ++ " " ++ extension),
         None).

End Handles.
Arguments mkClient {Handle} _ _.
Arguments Client_Authorizer {Handle} _.
Arguments Client_UserAgent {Handle} _.
Arguments AddToUserAgent {Handle} _ _ _.
End autorest.

(** ** github.com/Azure/go-autorest/autorest/azure *)

Module azure.

(** [azure.Environment], restricted to the endpoint the package reads. *)
Record Environment : Type := mkEnvironment {
  ResourceManagerEndpoint : string
}.

End azure.

(** ** go.uber.org/zap *)

Module zap.

(** A logger is known by its name and by the key/value context that [With]
    has accumulated. *)
Record Logger : Type := mkLogger {
  name : string;
  context : list (string * string)
}.

Record SugaredLogger : Type := mkSugaredLogger { base : Logger }.

(** [zap.NewProduction()] returns what the process allows: a pointer to a
    logger, and an error. *)
Definition NewProduction (production : option Logger * option error)
  : M (option Logger * option error) :=
  ret production.

(** The methods below take the object behind their receiver; the caller
    dereferences the pointer it holds.

    [func (log *Logger) Named(s string) *Logger]: a new path segment, joined
    to the name by a period. *)
Definition Named (log : Logger) (s : string) : Logger :=
  if String.eqb s EmptyString then log
  else if String.eqb (name log) EmptyString then mkLogger s (context log)
  else mkLogger (name log ++ "." ++ s) (context log).

(** [log.Sugar()] *)
Definition Sugar (log : Logger) : SugaredLogger := mkSugaredLogger log.

(** [s.With(key, value)] *)
Definition With (s : SugaredLogger) (key value : string) : SugaredLogger :=
  mkSugaredLogger
    (mkLogger (name (base s)) (context (base s) ++ [(key, value)])).

Definition log (lvl : Level) (s : SugaredLogger) (msg : string) : M unit :=
  emit (Entry lvl (name (base s)) (context (base s)) msg).

(** [s.Info(msg)] *)
Definition Info (s : SugaredLogger) (msg : string) : M unit :=
  log InfoLevel s msg.

(** [s.Error(err)] for a non-nil [err]: the message of the entry is the
    error's. *)
Definition Error (s : SugaredLogger) (err : error) : M unit :=
  log ErrorLevel s (Error err).

End zap.

(** ** github.com/Azure/go-autorest/autorest/azure/auth *)

Module auth.

(** [auth.EnvironmentSettings], restricted to the field the package reads. *)
Record EnvironmentSettings : Type := mkEnvironmentSettings {
  Environment : azure.Environment
}.

Section Handles.
Variable Handle : Type.

(** What the surroundings of the process answer: each credential source,
    asked for a resource, yields an authorizer and an error; the settings
    are loaded from the environment variables, or are not. *)
Record Ambient : Type := mkAmbient {
  file : string -> autorest.Authorizer Handle * option error;
  cli : string -> autorest.Authorizer Handle * option error;
  environment : string -> autorest.Authorizer Handle * option error;
  settings_of_environment : EnvironmentSettings * option error
}.

Variable amb : Ambient.

Definition NewAuthorizerFromFileWithResource (resource : string)
  : M (autorest.Authorizer Handle * option error) :=
  emit (Invoke FromFile resource) ;; ret (file amb resource).

Definition NewAuthorizerFromCLIWithResource (resource : string)
  : M (autorest.Authorizer Handle * option error) :=
  emit (Invoke FromCLI resource) ;; ret (cli amb resource).

Definition NewAuthorizerFromEnvironmentWithResource (resource : string)
  : M (autorest.Authorizer Handle * option error) :=
  emit (Invoke FromEnvironment resource) ;; ret (environment amb resource).

Definition GetSettingsFromEnvironment
  : M (EnvironmentSettings * option error) :=
  ret (settings_of_environment amb).

End Handles.
Arguments mkAmbient {Handle} _ _ _ _.
Arguments file {Handle} _ _.
Arguments cli {Handle} _ _.
Arguments environment {Handle} _ _.
Arguments settings_of_environment {Handle} _.
Arguments NewAuthorizerFromFileWithResource {Handle} _ _ _.
Arguments NewAuthorizerFromCLIWithResource {Handle} _ _ _.
Arguments NewAuthorizerFromEnvironmentWithResource {Handle} _ _ _.
Arguments GetSettingsFromEnvironment {Handle} _ _.
End auth.

(** The surroundings of a process that uses the package. *)
Record World (Handle : Type) : Type := mkWorld {
  ambient : auth.Ambient Handle;
  production : option zap.Logger * option error
}.
Arguments mkWorld {Handle} _ _.
Arguments ambient {Handle} _.
Arguments production {Handle} _.

(** ** package azauth (src/unnamed/part_000) *)

Module azauth.
Section Handles.
Variable Handle : Type.

(** [type Config struct]: the four pointer fields may be nil. *)
Record Config : Type := mkConfig {
  userAgent : string;
  Log : option zap.Logger;
  Sugar : option zap.SugaredLogger;
  settings : option auth.EnvironmentSettings;
  armAuthorizer : option (autorest.Authorizer Handle)
}.

(** [type Option func(c *Config) *Config].  An option receives a pointer
    ([None] is nil) and answers with a pointer; the Config is the one behind
    the pointer, before and after. *)
Definition Option : Type := option Config -> M (option Config).

(** [func UserAgent(userAgent string) Option] *)
Definition UserAgent (userAgent : string) : Option :=
  fun c =>
    c0 <- deref c ;;
    ret (Some (mkConfig userAgent (Log c0) (Sugar c0) (settings c0)
                        (armAuthorizer c0))).

(** [for _, opt := range opts { c = opt(c) }] *)
Fixpoint range_opts (opts : list Option) (c : option Config)
  : M (option Config) :=
  match opts with
  | [] => ret c
  | opt :: opts' => c' <- opt c ;; range_opts opts' c'
  end.

Variable w : World Handle.

(** [func New(opts ...Option)], which returns a [*Config] and an [error]. *)
Definition New (opts : list Option) : M (option Config * option error) :=
  '(settings, err) <- auth.GetSettingsFromEnvironment (ambient w) ;;
  match err with
  | Some e => ret (None, Some e)
  | None =>
    '(log, err) <- zap.NewProduction (production w) ;;
    match err with
    | Some e => ret (None, Some e)
    | None =>
      log0 <- deref log ;;
      let log := zap.Named log0 "azauth" in
      let c := mkConfig "azauth" (Some log) (Some (zap.Sugar log))
                        (Some settings) None in
      c <- range_opts opts (Some c) ;;
      ret (c, None)
    end
  end.

(** [func (c *Config) GetAuthorizerForResource(resource string)
      (authorizer autorest.Authorizer, err error)].
    Here and below [c] is the Config behind the (non-nil) receiver. *)
Definition GetAuthorizerForResource (c : Config) (resource : string)
  : M (autorest.Authorizer Handle * option error) :=
  sugar <- deref (Sugar c) ;;
  let log := zap.With sugar "method" "file" in
  '(authorizer, err) <-
     auth.NewAuthorizerFromFileWithResource (ambient w) resource ;;
  match err with
  | None => zap.Info log "ok" ;; ret (authorizer, err)
  | Some e =>
    zap.Error log e ;;
    sugar <- deref (Sugar c) ;;
    let log := zap.With sugar "method" "cli" in
    '(authorizer, err) <-
       auth.NewAuthorizerFromCLIWithResource (ambient w) resource ;;
    match err with
    | None => zap.Info log "ok" ;; ret (authorizer, err)
    | Some e =>
      zap.Error log e ;;
      sugar <- deref (Sugar c) ;;
      let log := zap.With sugar "method" "env" in
      '(authorizer, err) <-
         auth.NewAuthorizerFromEnvironmentWithResource (ambient w) resource ;;
      match err with
      | None => zap.Info log "ok" ;; ret (authorizer, err)
      | Some e =>
        zap.Error log e ;;
        ret (None, Some NoAuthorizerError)
      end
    end
  end.

(** [func (c *Config) GetArmAuthorizer() (autorest.Authorizer, error)].
    No field of the Config is assigned. *)
Definition GetArmAuthorizer (c : Config)
  : M (autorest.Authorizer Handle * option error) :=
  match armAuthorizer c with
  | Some cached =>
    sugar <- deref (Sugar c) ;;
    zap.Info sugar "using cached arm authorizer" ;;
    ret (cached, None)
  | None =>
    settings' <- deref (settings c) ;;
    GetAuthorizerForResource c
      (azure.ResourceManagerEndpoint (auth.Environment settings'))
  end.

(** [func (c *Config) setArmAuthorizer() error]; the Config as the call
    leaves it is handed back with the error. *)
Definition setArmAuthorizer (c : Config) : M (Config * option error) :=
  '(armAuthorizer, err) <- GetArmAuthorizer c ;;
  match err with
  | Some e => ret (c, Some e)
  | None =>
    ret (mkConfig (userAgent c) (Log c) (Sugar c) (settings c)
                  (Some armAuthorizer),
         None)
  end.

(** [func (c *Config) SetAuthorizers() error] *)
Definition SetAuthorizers (c : Config) : M (Config * option error) :=
  '(c', err) <- setArmAuthorizer c ;;
  match err with
  | Some e => ret (c', Some e)
  | None => ret (c', None)
  end.

(** [func (c *Config) AuthorizeClientForResource(resource string,
      client *autorest.Client, userAgent string) (err error)].
    [client] is the client behind the (non-nil) pointer; the client as the
    call leaves it is handed back with the error.

    The result parameter [err] starts as nil.  The [:=] of the [if] declares
    a second [err], local to the [if]; the bare [return] after the [if]
    returns the result parameter. *)
Definition AuthorizeClientForResource (c : Config) (resource : string)
  (client : autorest.Client Handle) (userAgent : string)
  : M (autorest.Client Handle * option error) :=
  let err : option error := None in
  '(authorizer, err') <- GetAuthorizerForResource c resource ;;
  match err' with
  | None =>
    let client := autorest.mkClient authorizer
                                    (autorest.Client_UserAgent client) in
    autorest.AddToUserAgent client userAgent
  | Some _ => ret (client, err)
  end.

End Handles.
Arguments mkConfig {Handle} _ _ _ _ _.
Arguments userAgent {Handle} _.
Arguments Log {Handle} _.
Arguments Sugar {Handle} _.
Arguments settings {Handle} _.
Arguments armAuthorizer {Handle} _.
Arguments UserAgent {Handle} _ _ _.
Arguments range_opts {Handle} _ _ _.
Arguments New {Handle} _ _ _.
Arguments GetAuthorizerForResource {Handle} _ _ _ _.
Arguments GetArmAuthorizer {Handle} _ _ _.
Arguments setArmAuthorizer {Handle} _ _ _.
Arguments SetAuthorizers {Handle} _ _ _.
Arguments AuthorizeClientForResource {Handle} _ _ _ _ _ _.
End azauth.

(** ** package azauth, earlier revisions (src/azauth.go)

    The file holds three earlier revisions of the package.  Two of their
    file-only resolvers are embedded: the one of the first revision, and the
    one of the revision that introduced the log and [NoAuthorizerError]. *)

(** The first revision: [Config] has a user agent and the environment. *)
Module azauth_first.
Section Handles.
Variable Handle : Type.

Record Config : Type := mkConfig {
  userAgent : string;
  env : option azure.Environment
}.

Variable w : World Handle.

(** [func (c *Config) GetFileAuthorizerForResource(resource string)
      (autorest.Authorizer, error)] *)
Definition GetFileAuthorizerForResource (c : Config) (resource : string)
  : M (autorest.Authorizer Handle * option error) :=
  auth.NewAuthorizerFromFileWithResource (ambient w) resource.

End Handles.
Arguments GetFileAuthorizerForResource {Handle} _ _ _ _.
End azauth_first.

(** The revision with the log: [Config] gains the two loggers. *)
Module azauth_logged.
Section Handles.
Variable Handle : Type.

Record Config : Type := mkConfig {
  userAgent : string;
  env : option azure.Environment;
  Log : option zap.Logger;
  Sugar : option zap.SugaredLogger
}.

Variable w : World Handle.

(** [func (c *Config) GetFileAuthorizerForResource(resource string)
      (authorizer autorest.Authorizer, err error)] *)
Definition GetFileAuthorizerForResource (c : Config) (resource : string)
  : M (autorest.Authorizer Handle * option error) :=
  sugar <- deref (Sugar c) ;;
  let log := zap.With sugar "method" "file" in
  env' <- deref (env c) ;;
  '(authorizer, err) <-
     auth.NewAuthorizerFromFileWithResource (ambient w)
       (azure.ResourceManagerEndpoint env') ;;
  match err with
  | None => zap.Info log "ok" ;; ret (authorizer, err)
  | Some e =>
    zap.Error log e ;;
    ret (None, Some NoAuthorizerError)
  end.

End Handles.
Arguments GetFileAuthorizerForResource {Handle} _ _ _ _.
End azauth_logged.

(** ** Reading a run *)

(** The log entries of the resolver: the child logger carries the method. *)
Definition entry (lvl : Level) (sugar : zap.SugaredLogger) (method msg : string)
  : event :=
  Entry lvl (zap.name (zap.base sugar))
        (zap.context (zap.base sugar) ++ [("method", method)]) msg.

Definition ok (sugar : zap.SugaredLogger) (method : string) : event :=
  entry InfoLevel sugar method "ok".

Definition failed (sugar : zap.SugaredLogger) (method : string) (e : error)
  : event :=
  entry ErrorLevel sugar method (Error e).

(** The entry of a cache hit. *)
Definition hit (sugar : zap.SugaredLogger) : event :=
  Entry InfoLevel (zap.name (zap.base sugar)) (zap.context (zap.base sugar))
        "using cached arm authorizer".

(** The Config that [New] builds before it applies the options. *)
Definition defaults {Handle : Type} (log : zap.Logger)
  (s : auth.EnvironmentSettings) : azauth.Config Handle :=
  azauth.mkConfig "azauth" (Some (zap.Named log "azauth"))
                  (Some (zap.Sugar (zap.Named log "azauth"))) (Some s) None.

(** A Config with another user agent, everything else alike. *)
Definition with_userAgent {Handle : Type} (c : azauth.Config Handle)
  (ua : string) : azauth.Config Handle :=
  azauth.mkConfig ua (azauth.Log c) (azauth.Sugar c) (azauth.settings c)
                  (azauth.armAuthorizer c).

(** A Config with an authorizer in the cache slot, everything else alike. *)
Definition with_armAuthorizer {Handle : Type} (c : azauth.Config Handle)
  (a : autorest.Authorizer Handle) : azauth.Config Handle :=
  azauth.mkConfig (azauth.userAgent c) (azauth.Log c) (azauth.Sugar c)
                  (azauth.settings c) (Some a).

(** A client with an authorizer installed, the user agent alike. *)
Definition with_Authorizer {Handle : Type} (client : autorest.Client Handle)
  (a : autorest.Authorizer Handle) : autorest.Client Handle :=
  autorest.mkClient a (autorest.Client_UserAgent client).

(** ** Concrete surroundings

    Handles are named by strings.  A source either hands out its token for
    every resource or fails with its message. *)
Module Scenario.

Definition source (token : option string) (msg : string) (resource : string)
  : autorest.Authorizer string * option error :=
  match token with
  | Some h => (Some h, None)
  | None => (None, Some (Foreign msg))
  end.

Definition management : string := "https://management.azure.com/".
Definition vault : string := "https://vault.azure.net".

Definition public : auth.EnvironmentSettings :=
  auth.mkEnvironmentSettings (azure.mkEnvironment management).

Definition logger : zap.Logger := zap.mkLogger EmptyString [].

(** The process with the given tokens at the file, the CLI session and the
    environment variables; settings and logger are available. *)
Definition world (f c e : option string) : World string :=
  mkWorld
    (auth.mkAmbient (source f "auth file not found")
               (source c "az login required")
               (source e "missing client secret")
               (public, None))
    (Some logger, None).

(** The same process without the variable that names the cloud. *)
Definition unsettled : World string :=
  mkWorld
    (auth.mkAmbient (source None "auth file not found")
               (source None "az login required")
               (source None "missing client secret")
               (public, Some (Foreign "unknown cloud")))
    (Some logger, None).

Definition cfg : azauth.Config string := defaults logger public.

Definition sugar : zap.SugaredLogger :=
  zap.Sugar (zap.Named logger "azauth").

Definition client : autorest.Client string :=
  autorest.mkClient None "Go/go1.13 azure-sdk".

Definition logged_cfg : azauth_logged.Config :=
  azauth_logged.mkConfig "azauth"
    (Some (azure.mkEnvironment management))
    (Some (zap.Named logger "azauth")) (Some sugar).

Definition first_cfg : azauth_first.Config :=
  azauth_first.mkConfig "azauth" (Some (azure.mkEnvironment management)).

End Scenario.


(** ** What the text of the specification asks for

    Three of its sentences, stated over the embedding as they are worded. *)

(** "When the cache slot is empty, [GetArmAuthorizer] stores the handle it
    resolved in the cache slot before returning it, so that a second call
    finds a non-empty cache and performs no further Resolver work."
    [GetArmAuthorizer] assigns no field, so the second call meets the
    Config of the first. *)
Definition first_use_fills_cache {Handle : Type} (w : World Handle)
  (c : azauth.Config Handle) : Prop :=
  azauth.armAuthorizer c = None ->
  forall t a t1,
    azauth.GetArmAuthorizer w c t = (Done (a, None), t1) ->
    forall r t2,
      azauth.GetArmAuthorizer w c t1 = (r, t2) ->
      invocations t2 = invocations t1.



(** ** package azauth, earlier revisions: the rest of their text

    The methods that reach the SDK through [NewAuthorizerFromEnvironment] and
    [NewAuthorizerFromFile], which take no resource, are not embedded. *)

(** The first revision (src/azauth.go, lines 1-104), over
    [azauth_first.Config]. *)
Module azauth_first_rest.

(** [type Option func(c *Config)].  [New] hands an option the pointer to the
    Config it has built; an option is what it does to the Config behind that
    pointer. *)
Definition Option : Type := azauth_first.Config -> M azauth_first.Config.

(** [func UserAgent(userAgent string) Option] *)
Definition UserAgent (userAgent : string) : Option :=
  fun c => ret (azauth_first.mkConfig userAgent (azauth_first.env c)).

(** [for _, opt := range opts { opt(c) }] *)
Fixpoint range_opts (opts : list Option) (c : azauth_first.Config)
  : M azauth_first.Config :=
  match opts with
  | [] => ret c
  | opt :: opts' => c' <- opt c ;; range_opts opts' c'
  end.

Section Handles.
Variable Handle : Type.
Variable w : World Handle.

(** [func New(opts ...Option)], which returns a [*Config] and an [error]. *)
Definition New (opts : list Option)
  : M (option azauth_first.Config * option error) :=
  '(settings, err) <- auth.GetSettingsFromEnvironment (ambient w) ;;
  match err with
  | Some e => ret (None, Some e)
  | None =>
    let c := azauth_first.mkConfig "azauth"
               (Some (auth.Environment settings)) in
    c <- range_opts opts c ;;
    ret (Some c, None)
  end.

(** [func (c *Config) GetAuthorizerForResource(resource string)
      (autorest.Authorizer, error)] *)
Definition GetAuthorizerForResource (c : azauth_first.Config)
  (resource : string) : M (autorest.Authorizer Handle * option error) :=
  auth.NewAuthorizerFromEnvironmentWithResource (ambient w) resource.

(** [func (c *Config) AuthorizeClientForResource(client *autorest.Client,
      resource string) (err error)]; the [:=] of the [if] declares an [err]
    of its own, as in the latest revision. *)
Definition AuthorizeClientForResource (c : azauth_first.Config)
  (client : autorest.Client Handle) (resource : string)
  : M (autorest.Client Handle * option error) :=
  let err : option error := None in
  '(authorizer, err') <- GetAuthorizerForResource c resource ;;
  match err' with
  | None =>
    let client := autorest.mkClient authorizer
                                    (autorest.Client_UserAgent client) in
    autorest.AddToUserAgent client (azauth_first.userAgent c)
  | Some _ => ret (client, err)
  end.

(** [func (c *Config) AuthorizeClientFromFileForResource(
      client *autorest.Client, resource string) (err error)] *)
Definition AuthorizeClientFromFileForResource (c : azauth_first.Config)
  (client : autorest.Client Handle) (resource : string)
  : M (autorest.Client Handle * option error) :=
  let err : option error := None in
  '(authorizer, err') <-
     azauth_first.GetFileAuthorizerForResource w c resource ;;
  match err' with
  | None =>
    let client := autorest.mkClient authorizer
                                    (autorest.Client_UserAgent client) in
    autorest.AddToUserAgent client (azauth_first.userAgent c)
  | Some _ => ret (client, err)
  end.

End Handles.
Arguments New {Handle} _ _ _.
Arguments GetAuthorizerForResource {Handle} _ _ _ _.
Arguments AuthorizeClientForResource {Handle} _ _ _ _ _.
Arguments AuthorizeClientFromFileForResource {Handle} _ _ _ _ _.
End azauth_first_rest.

(** The revision without resolver methods (src/azauth.go, lines 105-188):
    the binders call the SDK themselves.  Its [Config], [Option], [New] and
    [UserAgent] have the text of the first revision. *)
Module azauth_direct.
Section Handles.
Variable Handle : Type.
Variable w : World Handle.

(** [func (c *Config) AuthorizeClientForResource(client *autorest.Client,
      resource string) (err error)] *)
Definition AuthorizeClientForResource (c : azauth_first.Config)
  (client : autorest.Client Handle) (resource : string)
  : M (autorest.Client Handle * option error) :=
  let err : option error := None in
  '(authorizer, err') <-
     auth.NewAuthorizerFromEnvironmentWithResource (ambient w) resource ;;
  match err' with
  | None =>
    let client := autorest.mkClient authorizer
                                    (autorest.Client_UserAgent client) in
    autorest.AddToUserAgent client (azauth_first.userAgent c)
  | Some _ => ret (client, err)
  end.

(** [func (c *Config) AuthorizeClientFromFileForResource(
      client *autorest.Client, resource string) (err error)] *)
Definition AuthorizeClientFromFileForResource (c : azauth_first.Config)
  (client : autorest.Client Handle) (resource : string)
  : M (autorest.Client Handle * option error) :=
  let err : option error := None in
  '(authorizer, err') <-
     auth.NewAuthorizerFromFileWithResource (ambient w) resource ;;
  match err' with
  | None =>
    let client := autorest.mkClient authorizer
                                    (autorest.Client_UserAgent client) in
    autorest.AddToUserAgent client (azauth_first.userAgent c)
  | Some _ => ret (client, err)
  end.

End Handles.
Arguments AuthorizeClientForResource {Handle} _ _ _ _ _.
Arguments AuthorizeClientFromFileForResource {Handle} _ _ _ _ _.
End azauth_direct.

(** The revision with the log (src/azauth.go, lines 189-342), over
    [azauth_logged.Config]. *)
Module azauth_logged_rest.

(** [type Option func(c *Config)] *)
Definition Option : Type := azauth_logged.Config -> M azauth_logged.Config.

(** [func UserAgent(userAgent string) Option] *)
Definition UserAgent (userAgent : string) : Option :=
  fun c =>
    ret (azauth_logged.mkConfig userAgent (azauth_logged.env c)
           (azauth_logged.Log c) (azauth_logged.Sugar c)).

(** [for _, opt := range opts { opt(c) }] *)
Fixpoint range_opts (opts : list Option) (c : azauth_logged.Config)
  : M azauth_logged.Config :=
  match opts with
  | [] => ret c
  | opt :: opts' => c' <- opt c ;; range_opts opts' c'
  end.

Section Handles.
Variable Handle : Type.
Variable w : World Handle.

(** [func New(opts ...Option)]: the logger comes first, the settings
    second. *)
Definition New (opts : list Option)
  : M (option azauth_logged.Config * option error) :=
  '(log, err) <- zap.NewProduction (production w) ;;
  match err with
  | Some e => ret (None, Some e)
  | None =>
    '(settings, err) <- auth.GetSettingsFromEnvironment (ambient w) ;;
    match err with
    | Some e => ret (None, Some e)
    | None =>
      log0 <- deref log ;;
      let log := zap.Named log0 "azauth" in
      let c := azauth_logged.mkConfig "azauth"
                 (Some (auth.Environment settings))
                 (Some log) (Some (zap.Sugar log)) in
      c <- range_opts opts c ;;
      ret (Some c, None)
    end
  end.

(** [func (c *Config) GetAuthorizerForResource(resource string)
      (authorizer autorest.Authorizer, err error)] *)
Definition GetAuthorizerForResource (c : azauth_logged.Config)
  (resource : string) : M (autorest.Authorizer Handle * option error) :=
  sugar <- deref (azauth_logged.Sugar c) ;;
  let log := zap.With sugar "method" "env" in
  '(authorizer, err) <-
     auth.NewAuthorizerFromEnvironmentWithResource (ambient w) resource ;;
  match err with
  | None => zap.Info log "ok" ;; ret (authorizer, err)
  | Some e =>
    zap.Error log e ;;
    ret (None, Some NoAuthorizerError)
  end.

(** [func (c *Config) AuthorizeClientForResource(client *autorest.Client,
      resource string) (err error)] *)
Definition AuthorizeClientForResource (c : azauth_logged.Config)
  (client : autorest.Client Handle) (resource : string)
  : M (autorest.Client Handle * option error) :=
  let err : option error := None in
  '(authorizer, err') <- GetAuthorizerForResource c resource ;;
  match err' with
  | None =>
    let client := autorest.mkClient authorizer
                                    (autorest.Client_UserAgent client) in
    autorest.AddToUserAgent client (azauth_logged.userAgent c)
  | Some _ => ret (client, err)
  end.

(** [func (c *Config) AuthorizeClientFromFileForResource(
      client *autorest.Client, resource string) (err error)] *)
Definition AuthorizeClientFromFileForResource (c : azauth_logged.Config)
  (client : autorest.Client Handle) (resource : string)
  : M (autorest.Client Handle * option error) :=
  let err : option error := None in
  '(authorizer, err') <-
     azauth_logged.GetFileAuthorizerForResource w c resource ;;
  match err' with
  | None =>
    let client := autorest.mkClient authorizer
                                    (autorest.Client_UserAgent client) in
    autorest.AddToUserAgent client (azauth_logged.userAgent c)
  | Some _ => ret (client, err)
  end.

End Handles.
Arguments New {Handle} _ _ _.
Arguments GetAuthorizerForResource {Handle} _ _ _ _.
Arguments AuthorizeClientForResource {Handle} _ _ _ _ _.
Arguments AuthorizeClientFromFileForResource {Handle} _ _ _ _ _.
End azauth_logged_rest.

(** ** Concrete surroundings in trouble *)
Module Trouble.

(** A process whose log cannot be opened; the settings are available. *)
Definition mute : World string :=
  mkWorld (ambient (Scenario.world None None (Some "env-token")))
          (None, Some (Foreign "cannot open sink")).

(** A process with neither the log nor the settings. *)
Definition mute_unsettled : World string :=
  mkWorld (ambient Scenario.unsettled)
          (None, Some (Foreign "cannot open sink")).

(** A Config put together by hand, without loggers. *)
Definition bare : azauth.Config string :=
  azauth.mkConfig "azauth" None None (Some Scenario.public) None.

(** An option that answers with the nil pointer. *)
Definition drop : azauth.Option string := fun _ => ret None.

End Trouble.

(** * Properties *)

(** ** Traces *)

Lemma invocations_app (t u : list event) :
  invocations (t ++ u) = invocations t ++ invocations u.
Proof.
  induction t as [|e t IH]; simpl.
  - reflexivity.
  - destruct e; simpl; rewrite IH; reflexivity.
Qed.

(** Unfold one layer of a computation and normalise the trace it leaves. *)
Ltac run :=
  unfold bind, ret, emit, deref, panic, zap.Info, zap.Error, zap.log,
    auth.NewAuthorizerFromFileWithResource,
    auth.NewAuthorizerFromCLIWithResource,
    auth.NewAuthorizerFromEnvironmentWithResource,
    auth.GetSettingsFromEnvironment, zap.NewProduction; simpl.

Ltac trace := repeat rewrite <- app_assoc; simpl.

(** ** The resolver, case by case *)

Section Resolver.
Context {Handle : Type}.
Variable w : World Handle.
Variable c : azauth.Config Handle.
Variable sugar : zap.SugaredLogger.
Hypothesis logger_set : azauth.Sugar c = Some sugar.
Variable resource : string.
Variable t : list event.

Lemma resolve_file (a : autorest.Authorizer Handle) :
  auth.file (ambient w) resource = (a, None) ->
  azauth.GetAuthorizerForResource w c resource t
  = (Done (a, None), t ++ [Invoke FromFile resource; ok sugar "file"]).
Proof.
  intros Hf. unfold azauth.GetAuthorizerForResource. run.
  rewrite logger_set, Hf. simpl. trace. reflexivity.
Qed.

Lemma resolve_cli (a0 a : autorest.Authorizer Handle) (e0 : error) :
  auth.file (ambient w) resource = (a0, Some e0) ->
  auth.cli (ambient w) resource = (a, None) ->
  azauth.GetAuthorizerForResource w c resource t
  = (Done (a, None),
     t ++ [Invoke FromFile resource; failed sugar "file" e0;
           Invoke FromCLI resource; ok sugar "cli"]).
Proof.
  intros Hf Hc. unfold azauth.GetAuthorizerForResource. run.
  rewrite logger_set, Hf. simpl. rewrite Hc. simpl. trace. reflexivity.
Qed.

Lemma resolve_environment (a0 a1 a : autorest.Authorizer Handle)
  (e0 e1 : error) :
  auth.file (ambient w) resource = (a0, Some e0) ->
  auth.cli (ambient w) resource = (a1, Some e1) ->
  auth.environment (ambient w) resource = (a, None) ->
  azauth.GetAuthorizerForResource w c resource t
  = (Done (a, None),
     t ++ [Invoke FromFile resource; failed sugar "file" e0;
           Invoke FromCLI resource; failed sugar "cli" e1;
           Invoke FromEnvironment resource; ok sugar "env"]).
Proof.
  intros Hf Hc He. unfold azauth.GetAuthorizerForResource. run.
  rewrite logger_set, Hf. simpl. rewrite Hc. simpl. rewrite He. simpl.
  trace. reflexivity.
Qed.

Lemma resolve_none (a0 a1 a2 : autorest.Authorizer Handle)
  (e0 e1 e2 : error) :
  auth.file (ambient w) resource = (a0, Some e0) ->
  auth.cli (ambient w) resource = (a1, Some e1) ->
  auth.environment (ambient w) resource = (a2, Some e2) ->
  azauth.GetAuthorizerForResource w c resource t
  = (Done (None, Some NoAuthorizerError),
     t ++ [Invoke FromFile resource; failed sugar "file" e0;
           Invoke FromCLI resource; failed sugar "cli" e1;
           Invoke FromEnvironment resource; failed sugar "env" e2]).
Proof.
  intros Hf Hc He. unfold azauth.GetAuthorizerForResource. run.
  rewrite logger_set, Hf. simpl. rewrite Hc. simpl. rewrite He. simpl.
  trace. reflexivity.
Qed.

End Resolver.

(** A resolution that returns has found the logger of the Config. *)
Lemma resolved_with_logger {Handle : Type} (w : World Handle)
  (c : azauth.Config Handle) (resource : string) (t t1 : list event)
  (r : autorest.Authorizer Handle * option error) :
  azauth.GetAuthorizerForResource w c resource t = (Done r, t1) ->
  exists sugar, azauth.Sugar c = Some sugar.
Proof.
  unfold azauth.GetAuthorizerForResource. run.
  destruct (azauth.Sugar c) as [sugar|]; simpl.
  - intros _. exists sugar. reflexivity.
  - discriminate.
Qed.

(** Whatever the sources answer, each of them is asked for the resource the
    caller named, and for no other. *)
Lemma resolver_passes_resource {Handle : Type} (w : World Handle)
  (c : azauth.Config Handle) (resource : string) (t : list event) :
  exists evs,
    snd (azauth.GetAuthorizerForResource w c resource t) = t ++ evs
    /\ Forall (fun i => snd i = resource) (invocations evs).
Proof.
  unfold azauth.GetAuthorizerForResource. run.
  destruct (azauth.Sugar c) as [sugar|]; simpl.
  2:{ exists []. rewrite app_nil_r. split; [reflexivity | constructor]. }
  destruct (auth.file (ambient w) resource) as [a0 [e0|]]; simpl.
  2:{ eexists. split; [trace; reflexivity | simpl; repeat constructor]. }
  destruct (auth.cli (ambient w) resource) as [a1 [e1|]]; simpl.
  2:{ eexists. split; [trace; reflexivity | simpl; repeat constructor]. }
  destruct (auth.environment (ambient w) resource) as [a2 [e2|]]; simpl.
  - eexists. split; [trace; reflexivity | simpl; repeat constructor].
  - eexists. split; [trace; reflexivity | simpl; repeat constructor].
Qed.

(** ** The client binder, by the outcome of the resolution *)

Section Binder.
Context {Handle : Type}.
Variable w : World Handle.
Variable c : azauth.Config Handle.
Variable resource : string.
Variable client : autorest.Client Handle.
Variable userAgent : string.
Variables t t1 : list event.

Lemma binder_after_failure (a : autorest.Authorizer Handle) (e : error) :
  azauth.GetAuthorizerForResource w c resource t = (Done (a, Some e), t1) ->
  azauth.AuthorizeClientForResource w c resource client userAgent t
  = (Done (client, None), t1).
Proof.
  intros H. unfold azauth.AuthorizeClientForResource, bind.
  rewrite H. reflexivity.
Qed.

Lemma binder_after_success (a : autorest.Authorizer Handle) :
  azauth.GetAuthorizerForResource w c resource t = (Done (a, None), t1) ->
  azauth.AuthorizeClientForResource w c resource client userAgent t
  = autorest.AddToUserAgent (with_Authorizer client a) userAgent t1.
Proof.
  intros H. unfold azauth.AuthorizeClientForResource, bind.
  rewrite H. reflexivity.
Qed.

Lemma binder_after_panic (msg : string) :
  azauth.GetAuthorizerForResource w c resource t = (Panic msg, t1) ->
  azauth.AuthorizeClientForResource w c resource client userAgent t
  = (Panic msg, t1).
Proof.
  intros H. unfold azauth.AuthorizeClientForResource, bind.
  rewrite H. reflexivity.
Qed.

End Binder.

Lemma AddToUserAgent_extension {Handle : Type} (cl : autorest.Client Handle)
  (extension : string) (t : list event) :
  extension <> EmptyString ->
  autorest.AddToUserAgent cl extension t
  = (Done (autorest.mkClient (autorest.Client_Authorizer cl)
             (autorest.Client_UserAgent cl ++ " " ++ extension), None), t).
Proof.
  intros H. unfold autorest.AddToUserAgent.
  destruct (String.eqb_spec extension EmptyString) as [E|E].
  - contradiction.
  - reflexivity.
Qed.


(** ** The cache slot *)

Section Cache.
Context {Handle : Type}.
Variable w : World Handle.
Variable c : azauth.Config Handle.

Lemma cache_miss (s : auth.EnvironmentSettings) (t : list event) :
  azauth.armAuthorizer c = None ->
  azauth.settings c = Some s ->
  azauth.GetArmAuthorizer w c t
  = azauth.GetAuthorizerForResource w c
      (azure.ResourceManagerEndpoint (auth.Environment s)) t.
Proof.
  intros Harm Hset. unfold azauth.GetArmAuthorizer.
  rewrite Harm, Hset. reflexivity.
Qed.

Lemma cache_hit (cached : autorest.Authorizer Handle)
  (sugar : zap.SugaredLogger) (t : list event) :
  azauth.armAuthorizer c = Some cached ->
  azauth.Sugar c = Some sugar ->
  azauth.GetArmAuthorizer w c t = (Done (cached, None), t ++ [hit sugar]).
Proof.
  intros Harm Hsugar. unfold azauth.GetArmAuthorizer.
  rewrite Harm. run. rewrite Hsugar. reflexivity.
Qed.

(** A lookup that returns has found the logger of the Config. *)
Lemma looked_up_with_logger (t t1 : list event)
  (r : autorest.Authorizer Handle * option error) :
  azauth.GetArmAuthorizer w c t = (Done r, t1) ->
  exists sugar, azauth.Sugar c = Some sugar.
Proof.
  unfold azauth.GetArmAuthorizer.
  destruct (azauth.armAuthorizer c) as [cached|].
  - run. destruct (azauth.Sugar c) as [sugar|]; simpl.
    + intros _. exists sugar. reflexivity.
    + discriminate.
  - unfold bind, deref. destruct (azauth.settings c) as [s|]; simpl.
    + apply resolved_with_logger.
    + discriminate.
Qed.

(** [SetAuthorizers] succeeds exactly when the lookup does, and then leaves
    the Config with the authorizer looked up in its cache slot. *)
Lemma SetAuthorizers_success (c' : azauth.Config Handle)
  (t t1 : list event) :
  azauth.SetAuthorizers w c t = (Done (c', None), t1) ->
  exists a,
    azauth.GetArmAuthorizer w c t = (Done (a, None), t1)
    /\ c' = with_armAuthorizer c a.
Proof.
  unfold azauth.SetAuthorizers, azauth.setArmAuthorizer, bind.
  destruct (azauth.GetArmAuthorizer w c t) as [[[a [e|]]|msg] t'];
    simpl; intros H; inversion H; subst.
  exists a. split; reflexivity.
Qed.

End Cache.

(** ** Construction *)

Lemma last_cons {A : Type} (x d : A) (l : list A) :
  last (x :: l) d = last l x.
Proof.
  revert x d. induction l as [|y l IH]; intros x d.
  - reflexivity.
  - change (last (x :: y :: l) d) with (last (y :: l) d).
    rewrite (IH y d). symmetry. apply IH.
Qed.

Lemma with_userAgent_same {Handle : Type} (c : azauth.Config Handle) :
  with_userAgent c (azauth.userAgent c) = c.
Proof. destruct c; reflexivity. Qed.

(** A run of [UserAgent] options leaves the Config with the last of them. *)
Lemma range_UserAgent {Handle : Type} (uas : list string) :
  forall (c : azauth.Config Handle) (t : list event),
    azauth.range_opts (map azauth.UserAgent uas) (Some c) t
    = (Done (Some (with_userAgent c (last uas (azauth.userAgent c)))), t).
Proof.
  induction uas as [|ua uas IH]; intros c t.
  - simpl. rewrite with_userAgent_same. reflexivity.
  - rewrite last_cons. simpl. unfold bind. simpl.
    change (azauth.mkConfig ua (azauth.Log c) (azauth.Sugar c)
              (azauth.settings c) (azauth.armAuthorizer c))
      with (with_userAgent c ua).
    rewrite IH. reflexivity.
Qed.

(** With the settings loaded and a logger at hand, [New] is the run of the
    options over the defaults. *)
Lemma New_ranges_over_defaults {Handle : Type} (w : World Handle)
  (s : auth.EnvironmentSettings) (log : zap.Logger)
  (opts : list (azauth.Option Handle)) (t : list event) :
  auth.settings_of_environment (ambient w) = (s, None) ->
  production w = (Some log, None) ->
  azauth.New w opts t
  = (c <- azauth.range_opts opts (Some (defaults log s)) ;; ret (c, None)) t.
Proof.
  intros Hs Hl. unfold azauth.New. run. rewrite Hs. simpl. rewrite Hl.
  reflexivity.
Qed.

(** Under the options of the package, a Config that [New] returns has its
    logger and its settings, and an empty cache slot. *)
Lemma New_leaves_logger {Handle : Type} (w : World Handle)
  (uas : list string) (t t' : list event) (c : azauth.Config Handle)
  (err : option error) :
  azauth.New w (map azauth.UserAgent uas) t = (Done (Some c, err), t') ->
  exists sugar s,
    azauth.Sugar c = Some sugar
    /\ azauth.settings c = Some s
    /\ azauth.armAuthorizer c = None.
Proof.
  unfold azauth.New. run.
  destruct (auth.settings_of_environment (ambient w)) as [s [e|]]; simpl;
    [discriminate|].
  destruct (production w) as [[log|] [e|]]; simpl; try discriminate.
  fold (@defaults Handle log s). unfold bind.
  rewrite range_UserAgent. intros H. inversion H; subst.
  do 2 eexists. repeat split.
Qed.

(** * The resolver *)

(** C1.  For every resource, [GetAuthorizerForResource] asks the file, then
    the CLI session, then the environment variables, all for that resource,
    and returns the authorizer of the first source that succeeds without
    asking any later source; in particular the file's authorizer is returned
    when the file and the environment would both succeed.  The Config has
    its logger, as [New] leaves it; the trace shows every source asked. *)
Theorem resolver_priority :
  forall (Handle : Type) (w : World Handle) (c : azauth.Config Handle)
         (sugar : zap.SugaredLogger) (resource : string) (t : list event),
    azauth.Sugar c = Some sugar ->
    (forall a,
        auth.file (ambient w) resource = (a, None) ->
        azauth.GetAuthorizerForResource w c resource t
        = (Done (a, None), t ++ [Invoke FromFile resource; ok sugar "file"]))
    /\ (forall a0 e0 a,
        auth.file (ambient w) resource = (a0, Some e0) ->
        auth.cli (ambient w) resource = (a, None) ->
        azauth.GetAuthorizerForResource w c resource t
        = (Done (a, None),
           t ++ [Invoke FromFile resource; failed sugar "file" e0;
                 Invoke FromCLI resource; ok sugar "cli"]))
    /\ (forall a0 e0 a1 e1 a,
        auth.file (ambient w) resource = (a0, Some e0) ->
        auth.cli (ambient w) resource = (a1, Some e1) ->
        auth.environment (ambient w) resource = (a, None) ->
        azauth.GetAuthorizerForResource w c resource t
        = (Done (a, None),
           t ++ [Invoke FromFile resource; failed sugar "file" e0;
                 Invoke FromCLI resource; failed sugar "cli" e1;
                 Invoke FromEnvironment resource; ok sugar "env"]))
    /\ (forall a a',
        auth.file (ambient w) resource = (a, None) ->
        auth.environment (ambient w) resource = (a', None) ->
        exists t',
          azauth.GetAuthorizerForResource w c resource t
          = (Done (a, None), t')
          /\ invocations t' = invocations t ++ [(FromFile, resource)]).
Proof.
  intros Handle w c sugar resource t Hsugar.
  split; [|split; [|split]].
  - intros a Hf. apply resolve_file; assumption.
  - intros a0 e0 a Hf Hc. eapply resolve_cli; eassumption.
  - intros a0 e0 a1 e1 a Hf Hc He. eapply resolve_environment; eassumption.
  - intros a a' Hf _. eexists. split.
    + apply resolve_file; eassumption.
    + rewrite invocations_app. reflexivity.
Qed.

Lemma resolver_priority_witness :
  azauth.GetAuthorizerForResource
    (Scenario.world (Some "file-token") (Some "cli-token") (Some "env-token"))
    Scenario.cfg Scenario.vault []
  = (Done (Some "file-token", None),
     [Invoke FromFile Scenario.vault; ok Scenario.sugar "file"])
  /\ azauth.GetAuthorizerForResource
       (Scenario.world None (Some "cli-token") (Some "env-token"))
       Scenario.cfg Scenario.vault []
     = (Done (Some "cli-token", None),
        [Invoke FromFile Scenario.vault;
         failed Scenario.sugar "file" (Foreign "auth file not found");
         Invoke FromCLI Scenario.vault; ok Scenario.sugar "cli"])
  /\ azauth.GetAuthorizerForResource
       (Scenario.world None None (Some "env-token"))
       Scenario.cfg Scenario.vault []
     = (Done (Some "env-token", None),
        [Invoke FromFile Scenario.vault;
         failed Scenario.sugar "file" (Foreign "auth file not found");
         Invoke FromCLI Scenario.vault;
         failed Scenario.sugar "cli" (Foreign "az login required");
         Invoke FromEnvironment Scenario.vault; ok Scenario.sugar "env"]).
Proof.
  split; [|split].
  - exact (proj1 (resolver_priority string
             (Scenario.world (Some "file-token") (Some "cli-token")
                             (Some "env-token"))
             Scenario.cfg Scenario.sugar Scenario.vault [] eq_refl)
             (Some "file-token") eq_refl).
  - exact (proj1 (proj2 (resolver_priority string
             (Scenario.world None (Some "cli-token") (Some "env-token"))
             Scenario.cfg Scenario.sugar Scenario.vault [] eq_refl))
             None (Foreign "auth file not found") (Some "cli-token")
             eq_refl eq_refl).
  - exact (proj1 (proj2 (proj2 (resolver_priority string
             (Scenario.world None None (Some "env-token"))
             Scenario.cfg Scenario.sugar Scenario.vault [] eq_refl)))
             None (Foreign "auth file not found")
             None (Foreign "az login required") (Some "env-token")
             eq_refl eq_refl eq_refl).
Defined.

(** C2.  For every resource, when the file, the CLI session and the
    environment all fail, [GetAuthorizerForResource] returns
    [NoAuthorizerError], whose message is "no authorizer available" whatever
    the three underlying errors were, and each source has been asked exactly
    once. *)
Theorem resolver_exhausted :
  forall (Handle : Type) (w : World Handle) (c : azauth.Config Handle)
         (sugar : zap.SugaredLogger) (resource : string) (t : list event)
         (a0 a1 a2 : autorest.Authorizer Handle) (e0 e1 e2 : error),
    azauth.Sugar c = Some sugar ->
    auth.file (ambient w) resource = (a0, Some e0) ->
    auth.cli (ambient w) resource = (a1, Some e1) ->
    auth.environment (ambient w) resource = (a2, Some e2) ->
    exists err evs,
      azauth.GetAuthorizerForResource w c resource t
      = (Done (None, Some err), t ++ evs)
      /\ err = NoAuthorizerError
      /\ Error err = "no authorizer available"
      /\ invocations evs
         = [(FromFile, resource); (FromCLI, resource);
            (FromEnvironment, resource)]
      /\ (forall src, times src evs = 1).
Proof.
  intros Handle w c sugar resource t a0 a1 a2 e0 e1 e2 Hsugar Hf Hc He.
  exists NoAuthorizerError. eexists. split.
  - eapply resolve_none; eassumption.
  - repeat split. intros src. destruct src; reflexivity.
Qed.

Lemma resolver_exhausted_witness :
  exists err evs,
    azauth.GetAuthorizerForResource (Scenario.world None None None)
      Scenario.cfg Scenario.vault []
    = (Done (None, Some err), [] ++ evs)
    /\ err = NoAuthorizerError
    /\ Error err = "no authorizer available"
    /\ invocations evs
       = [(FromFile, Scenario.vault); (FromCLI, Scenario.vault);
          (FromEnvironment, Scenario.vault)]
    /\ (forall src, times src evs = 1).
Proof.
  exact (resolver_exhausted string (Scenario.world None None None)
           Scenario.cfg Scenario.sugar Scenario.vault [] None None None
           (Foreign "auth file not found") (Foreign "az login required")
           (Foreign "missing client secret")
           eq_refl eq_refl eq_refl eq_refl).
Defined.

(** * The client binder *)

(** C3.  The resolver's failure does not reach the caller of
    [AuthorizeClientForResource].  With no credential at any source the
    resolver returns [NoAuthorizerError] for the vault; the binder, run on
    the same input, returns nil. *)
Theorem binder_loses_failure :
  azauth.GetAuthorizerForResource (Scenario.world None None None)
    Scenario.cfg Scenario.vault []
  = (Done (None, Some NoAuthorizerError),
     [Invoke FromFile Scenario.vault;
      failed Scenario.sugar "file" (Foreign "auth file not found");
      Invoke FromCLI Scenario.vault;
      failed Scenario.sugar "cli" (Foreign "az login required");
      Invoke FromEnvironment Scenario.vault;
      failed Scenario.sugar "env" (Foreign "missing client secret")])
  /\ azauth.AuthorizeClientForResource (Scenario.world None None None)
       Scenario.cfg Scenario.vault Scenario.client "azauth" []
     = (Done (Scenario.client, None),
        [Invoke FromFile Scenario.vault;
         failed Scenario.sugar "file" (Foreign "auth file not found");
         Invoke FromCLI Scenario.vault;
         failed Scenario.sugar "cli" (Foreign "az login required");
         Invoke FromEnvironment Scenario.vault;
         failed Scenario.sugar "env" (Foreign "missing client secret")]).
Proof. split; reflexivity. Qed.




(** C8.  For every resource on which the resolution succeeds, the binder
    returns a client whose credential slot holds the very authorizer that
    [GetAuthorizerForResource] returns for that resource. *)
Theorem binder_round_trip :
  forall (Handle : Type) (w : World Handle) (c : azauth.Config Handle)
         (resource : string) (client : autorest.Client Handle)
         (userAgent : string) (t t1 : list event)
         (a : autorest.Authorizer Handle),
    azauth.GetAuthorizerForResource w c resource t = (Done (a, None), t1) ->
    exists client' err,
      azauth.AuthorizeClientForResource w c resource client userAgent t
      = (Done (client', err), t1)
      /\ autorest.Client_Authorizer client' = a.
Proof.
  intros Handle w c resource client userAgent t t1 a H.
  rewrite (binder_after_success _ _ _ _ _ _ _ _ H).
  unfold autorest.AddToUserAgent.
  destruct (String.eqb userAgent EmptyString); do 2 eexists; split; reflexivity.
Qed.

Lemma binder_round_trip_witness :
  exists client' err,
    azauth.AuthorizeClientForResource
      (Scenario.world None (Some "cli-token") None)
      Scenario.cfg Scenario.vault Scenario.client "azauth" []
    = (Done (client', err),
       [Invoke FromFile Scenario.vault;
        failed Scenario.sugar "file" (Foreign "auth file not found");
        Invoke FromCLI Scenario.vault; ok Scenario.sugar "cli"])
    /\ autorest.Client_Authorizer client' = Some "cli-token".
Proof.
  exact (binder_round_trip string
           (Scenario.world None (Some "cli-token") None)
           Scenario.cfg Scenario.vault Scenario.client "azauth" [] _
           (Some "cli-token") eq_refl).
Defined.

(** * The cache slot *)

(** C4, as worded, fails.  The file has a credential and the cache slot is
    empty: [GetArmAuthorizer] resolves, returns, and a second call asks the
    file again. *)
Lemma first_use_fills_cache_fails :
  ~ first_use_fills_cache (Scenario.world (Some "file-token") None None)
      Scenario.cfg.
Proof.
  intros H.
  pose proof
    (H eq_refl [] (Some "file-token")
       [Invoke FromFile Scenario.management; ok Scenario.sugar "file"]
       eq_refl _ _ eq_refl) as Hsame.
  discriminate Hsame.
Qed.

(** C4, amended.  When the cache slot is empty, [GetArmAuthorizer] invokes
    the resolver for the resource manager endpoint of the settings and
    returns what the resolver returns.  It is [SetAuthorizers] that, when
    this lookup succeeds, stores the authorizer returned in the cache slot
    and changes nothing else, so that every later [GetArmAuthorizer] finds
    the slot filled, returns that authorizer and asks no source.
    [SetAuthorizers] succeeds in no other way. *)
Theorem cache_filled_by_SetAuthorizers :
  forall (Handle : Type) (w : World Handle) (c : azauth.Config Handle),
    (forall s t,
        azauth.armAuthorizer c = None ->
        azauth.settings c = Some s ->
        azauth.GetArmAuthorizer w c t
        = azauth.GetAuthorizerForResource w c
            (azure.ResourceManagerEndpoint (auth.Environment s)) t)
    /\ (forall a t t1,
        azauth.GetArmAuthorizer w c t = (Done (a, None), t1) ->
        azauth.SetAuthorizers w c t
        = (Done (with_armAuthorizer c a, None), t1)
        /\ azauth.armAuthorizer (with_armAuthorizer c a) = Some a
        /\ forall t2, exists t3,
            azauth.GetArmAuthorizer w (with_armAuthorizer c a) t2
            = (Done (a, None), t3)
            /\ invocations t3 = invocations t2)
    /\ (forall c' t t1,
        azauth.SetAuthorizers w c t = (Done (c', None), t1) ->
        exists a,
          azauth.GetArmAuthorizer w c t = (Done (a, None), t1)
          /\ c' = with_armAuthorizer c a).
Proof.
  intros Handle w c. split; [|split].
  - intros s t Harm Hset. apply cache_miss; assumption.
  - intros a t t1 Hget. split; [|split].
    + unfold azauth.SetAuthorizers, azauth.setArmAuthorizer, bind.
      rewrite Hget. reflexivity.
    + reflexivity.
    + intros t2.
      destruct (looked_up_with_logger _ _ _ _ _ Hget) as [sugar Hsugar].
      exists (t2 ++ [hit sugar]). split.
      * apply cache_hit; [reflexivity | exact Hsugar].
      * rewrite invocations_app. simpl. apply app_nil_r.
  - intros c' t t1 H. apply SetAuthorizers_success. exact H.
Qed.

Lemma cache_filled_by_SetAuthorizers_witness :
  azauth.GetArmAuthorizer (Scenario.world (Some "file-token") None None)
    Scenario.cfg []
  = azauth.GetAuthorizerForResource
      (Scenario.world (Some "file-token") None None) Scenario.cfg
      Scenario.management []
  /\ (azauth.SetAuthorizers (Scenario.world (Some "file-token") None None)
        Scenario.cfg []
      = (Done (with_armAuthorizer Scenario.cfg (Some "file-token"), None),
         [Invoke FromFile Scenario.management; ok Scenario.sugar "file"])
      /\ azauth.armAuthorizer
           (with_armAuthorizer Scenario.cfg (Some "file-token"))
         = Some (Some "file-token")
      /\ forall t2, exists t3,
          azauth.GetArmAuthorizer
            (Scenario.world (Some "file-token") None None)
            (with_armAuthorizer Scenario.cfg (Some "file-token")) t2
          = (Done (Some "file-token", None), t3)
          /\ invocations t3 = invocations t2)
  /\ exists a,
      azauth.GetArmAuthorizer (Scenario.world (Some "file-token") None None)
        Scenario.cfg []
      = (Done (a, None),
         [Invoke FromFile Scenario.management; ok Scenario.sugar "file"])
      /\ with_armAuthorizer Scenario.cfg (Some "file-token")
         = with_armAuthorizer Scenario.cfg a.
Proof.
  split; [|split].
  - exact (proj1 (cache_filled_by_SetAuthorizers string
             (Scenario.world (Some "file-token") None None) Scenario.cfg)
             Scenario.public [] eq_refl eq_refl).
  - exact (proj1 (proj2 (cache_filled_by_SetAuthorizers string
             (Scenario.world (Some "file-token") None None) Scenario.cfg))
             (Some "file-token") [] _ eq_refl).
  - exact (proj2 (proj2 (cache_filled_by_SetAuthorizers string
             (Scenario.world (Some "file-token") None None) Scenario.cfg))
             (with_armAuthorizer Scenario.cfg (Some "file-token")) [] _
             eq_refl).
Defined.

(** C6.  When the cache slot holds an authorizer, [GetArmAuthorizer]
    returns it with a nil error, writes one log entry and asks no source.
    The pair returned is the pair that the resolution which filled the slot
    returned: a hit differs from the miss before it in the trace only.  The
    Config has its logger, as [New] leaves it. *)
Theorem cache_hit_returns_cached :
  forall (Handle : Type) (w : World Handle) (c : azauth.Config Handle)
         (sugar : zap.SugaredLogger) (cached : autorest.Authorizer Handle)
         (t : list event),
    azauth.armAuthorizer c = Some cached ->
    azauth.Sugar c = Some sugar ->
    azauth.GetArmAuthorizer w c t = (Done (cached, None), t ++ [hit sugar])
    /\ invocations (t ++ [hit sugar]) = invocations t
    /\ (forall c0 t0 t1,
        azauth.armAuthorizer c0 = None ->
        azauth.SetAuthorizers w c0 t0 = (Done (c, None), t1) ->
        azauth.GetArmAuthorizer w c0 t0 = (Done (cached, None), t1)).
Proof.
  intros Handle w c sugar cached t Harm Hsugar.
  split; [|split].
  - apply cache_hit; assumption.
  - rewrite invocations_app. simpl. apply app_nil_r.
  - intros c0 t0 t1 _ Hset.
    destruct (SetAuthorizers_success _ _ _ _ _ Hset) as [a [Hget Hc]].
    subst c. simpl in Harm. inversion Harm; subst. exact Hget.
Qed.

Lemma cache_hit_returns_cached_witness :
  azauth.GetArmAuthorizer (Scenario.world None None None)
    (with_armAuthorizer Scenario.cfg (Some "file-token")) []
  = (Done (Some "file-token", None), [hit Scenario.sugar])
  /\ azauth.GetArmAuthorizer (Scenario.world (Some "file-token") None None)
       Scenario.cfg []
     = (Done (Some "file-token", None),
        [Invoke FromFile Scenario.management; ok Scenario.sugar "file"]).
Proof.
  split.
  - exact (proj1 (cache_hit_returns_cached string
             (Scenario.world None None None)
             (with_armAuthorizer Scenario.cfg (Some "file-token"))
             Scenario.sugar (Some "file-token") [] eq_refl eq_refl)).
  - exact (proj2 (proj2 (cache_hit_returns_cached string
             (Scenario.world (Some "file-token") None None)
             (with_armAuthorizer Scenario.cfg (Some "file-token"))
             Scenario.sugar (Some "file-token") [] eq_refl eq_refl))
             Scenario.cfg [] _ eq_refl eq_refl).
Defined.

(** * The resource handed to the sources *)

(** The file-only resolver of the first revision asks the file for the
    resource of its caller. *)
Lemma first_file_resolver_asks_for_resource {Handle : Type}
  (w : World Handle) (c : azauth_first.Config) (resource : string)
  (t : list event) :
  azauth_first.GetFileAuthorizerForResource w c resource t
  = (Done (auth.file (ambient w) resource), t ++ [Invoke FromFile resource]).
Proof. reflexivity. Qed.

(** The file-only resolver of the logged revision asks the file for the
    resource manager endpoint, whatever resource the caller names. *)
Lemma logged_file_resolver_asks_for_endpoint {Handle : Type}
  (w : World Handle) (c : azauth_logged.Config) (sugar : zap.SugaredLogger)
  (env : azure.Environment) (resource : string) (t : list event) :
  azauth_logged.Sugar c = Some sugar ->
  azauth_logged.env c = Some env ->
  invocations (snd (azauth_logged.GetFileAuthorizerForResource w c resource t))
  = invocations t ++ [(FromFile, azure.ResourceManagerEndpoint env)].
Proof.
  intros Hsugar Henv. unfold azauth_logged.GetFileAuthorizerForResource.
  run. rewrite Hsugar. simpl. rewrite Henv. simpl.
  destruct (auth.file (ambient w) (azure.ResourceManagerEndpoint env))
    as [a [e|]]; simpl; trace; rewrite invocations_app; reflexivity.
Qed.

(** C7.  The file is not always asked for the caller's resource.  Asked for
    an authorizer to the vault, [GetFileAuthorizerForResource] of the logged
    revision asks the file for the resource manager endpoint, which is
    another resource; the same method of the first revision asks for the
    vault. *)
Theorem file_resolver_ignores_resource :
  azauth_logged.GetFileAuthorizerForResource
    (Scenario.world (Some "file-token") None None) Scenario.logged_cfg
    Scenario.vault []
  = (Done (Some "file-token", None),
     [Invoke FromFile Scenario.management; ok Scenario.sugar "file"])
  /\ Scenario.management <> Scenario.vault
  /\ azauth_first.GetFileAuthorizerForResource
       (Scenario.world (Some "file-token") None None) Scenario.first_cfg
       Scenario.vault []
     = (Done (Some "file-token", None), [Invoke FromFile Scenario.vault]).
Proof.
  split; [reflexivity|]. split; [discriminate | reflexivity].
Qed.

(** * Construction *)

(** C9.  When the settings cannot be loaded from the environment, [New]
    returns the loader's error and a nil Config, whatever the options.  A
    Config that [New] returns therefore witnesses that the settings were
    loaded, and under the options of the package ([UserAgent]) it holds
    them. *)
Theorem New_needs_settings :
  forall (Handle : Type) (w : World Handle),
    (forall s e opts t,
        auth.settings_of_environment (ambient w) = (s, Some e) ->
        azauth.New w opts t = (Done (None, Some e), t))
    /\ (forall opts t c err t',
        azauth.New w opts t = (Done (Some c, err), t') ->
        exists s, auth.settings_of_environment (ambient w) = (s, None))
    /\ (forall uas t c err t',
        azauth.New w (map azauth.UserAgent uas) t = (Done (Some c, err), t') ->
        exists s,
          auth.settings_of_environment (ambient w) = (s, None)
          /\ azauth.settings c = Some s).
Proof.
  intros Handle w. split; [|split].
  - intros s e opts t Hs. unfold azauth.New. run. rewrite Hs. reflexivity.
  - intros opts t c err t'. unfold azauth.New. run.
    destruct (auth.settings_of_environment (ambient w)) as [s [e|]]; simpl.
    + discriminate.
    + intros _. exists s. reflexivity.
  - intros uas t c err t'.
    destruct (auth.settings_of_environment (ambient w)) as [s [e|]] eqn:Hs.
    + unfold azauth.New. run. rewrite Hs. discriminate.
    + destruct (production w) as [[log|] [e|]] eqn:Hl.
      * unfold azauth.New. run. rewrite Hs. simpl. rewrite Hl. discriminate.
      * rewrite (New_ranges_over_defaults w s log _ t Hs Hl).
        unfold bind. rewrite range_UserAgent. unfold ret.
        intros H. inversion H; subst. exists s. split; reflexivity.
      * unfold azauth.New. run. rewrite Hs. simpl. rewrite Hl. discriminate.
      * unfold azauth.New. run. rewrite Hs. simpl. rewrite Hl. discriminate.
Qed.

Lemma New_needs_settings_witness :
  azauth.New Scenario.unsettled [azauth.UserAgent "operator"] []
  = (Done (None, Some (Foreign "unknown cloud")), [])
  /\ (exists s,
        auth.settings_of_environment
          (ambient (Scenario.world None None None)) = (s, None))
  /\ (exists s,
        auth.settings_of_environment
          (ambient (Scenario.world None None None)) = (s, None)
        /\ azauth.settings (with_userAgent Scenario.cfg "operator") = Some s).
Proof.
  split; [|split].
  - exact (proj1 (New_needs_settings string Scenario.unsettled)
             Scenario.public (Foreign "unknown cloud")
             [azauth.UserAgent "operator"] [] eq_refl).
  - exact (proj1 (proj2 (New_needs_settings string
             (Scenario.world None None None)))
             [azauth.UserAgent "operator"] []
             (with_userAgent Scenario.cfg "operator") None [] eq_refl).
  - exact (proj2 (proj2 (New_needs_settings string
             (Scenario.world None None None)))
             ["operator"] []
             (with_userAgent Scenario.cfg "operator") None [] eq_refl).
Defined.




(** * Further properties of the latest revision *)

(** X1.  An error of [GetAuthorizerForResource] is always
    [NoAuthorizerError], it comes with the nil authorizer, and it is returned
    only when the file, the CLI session and the environment have all
    failed: no error of a source reaches the caller, and no authorizer of a
    failing source does. *)
Theorem resolver_error_is_aggregate :
  forall (Handle : Type) (w : World Handle) (c : azauth.Config Handle)
         (resource : string) (t t' : list event)
         (a : autorest.Authorizer Handle) (e : error),
    azauth.GetAuthorizerForResource w c resource t = (Done (a, Some e), t') ->
    a = None
    /\ e = NoAuthorizerError
    /\ snd (auth.file (ambient w) resource) <> None
    /\ snd (auth.cli (ambient w) resource) <> None
    /\ snd (auth.environment (ambient w) resource) <> None.
Proof.
  intros Handle w c resource t t' a e.
  unfold azauth.GetAuthorizerForResource. run.
  destruct (azauth.Sugar c) as [sugar|]; simpl; [|discriminate].
  destruct (auth.file (ambient w) resource) as [a0 [e0|]]; simpl;
    [|discriminate].
  destruct (auth.cli (ambient w) resource) as [a1 [e1|]]; simpl;
    [|discriminate].
  destruct (auth.environment (ambient w) resource) as [a2 [e2|]]; simpl;
    [|discriminate].
  intros H. inversion H; subst. repeat split; discriminate.
Qed.

Lemma resolver_error_is_aggregate_witness :
  @None string = None
  /\ NoAuthorizerError = NoAuthorizerError
  /\ snd (auth.file (ambient (Scenario.world None None None))
            Scenario.vault) <> None
  /\ snd (auth.cli (ambient (Scenario.world None None None))
            Scenario.vault) <> None
  /\ snd (auth.environment (ambient (Scenario.world None None None))
            Scenario.vault) <> None.
Proof.
  exact (resolver_error_is_aggregate string (Scenario.world None None None)
           Scenario.cfg Scenario.vault [] _ None NoAuthorizerError eq_refl).
Defined.

(** X2.  Whatever the sources answer and whatever the Config holds,
    [GetAuthorizerForResource] keeps the trace it finds and adds to it; the
    sources it asks are an initial part of file, CLI, environment, so none
    is asked twice or out of turn, and each is asked for the resource of the
    caller. *)
Theorem resolver_asks_in_order :
  forall (Handle : Type) (w : World Handle) (c : azauth.Config Handle)
         (resource : string) (t : list event),
    exists evs rest,
      snd (azauth.GetAuthorizerForResource w c resource t) = t ++ evs
      /\ asked evs ++ rest = [FromFile; FromCLI; FromEnvironment]
      /\ Forall (fun i => snd i = resource) (invocations evs).
Proof.
  intros Handle w c resource t.
  unfold azauth.GetAuthorizerForResource. run.
  destruct (azauth.Sugar c) as [sugar|]; simpl.
  2:{ exists [], [FromFile; FromCLI; FromEnvironment].
      rewrite app_nil_r. repeat split. constructor. }
  destruct (auth.file (ambient w) resource) as [a0 [e0|]]; simpl.
  2:{ eexists. exists [FromCLI; FromEnvironment].
      split; [trace; reflexivity|]. split; [reflexivity|].
      simpl. repeat constructor. }
  destruct (auth.cli (ambient w) resource) as [a1 [e1|]]; simpl.
  2:{ eexists. exists [FromEnvironment].
      split; [trace; reflexivity|]. split; [reflexivity|].
      simpl. repeat constructor. }
  destruct (auth.environment (ambient w) resource) as [a2 [e2|]]; simpl;
    eexists; exists [];
    (split; [trace; reflexivity|]; split; [reflexivity|];
     simpl; repeat constructor).
Qed.

(** X3.  A Config without its sugared logger cannot be used: the resolver,
    the binder, the lookup of the resource manager authorizer and
    [SetAuthorizers] all panic on the nil pointer, before any source is
    asked and before anything is logged, also when the cache slot is
    filled. *)
Theorem no_logger_panics :
  forall (Handle : Type) (w : World Handle) (c : azauth.Config Handle)
         (resource : string) (client : autorest.Client Handle)
         (userAgent : string) (t : list event),
    azauth.Sugar c = None ->
    azauth.GetAuthorizerForResource w c resource t
    = (Panic nilDereference, t)
    /\ azauth.AuthorizeClientForResource w c resource client userAgent t
       = (Panic nilDereference, t)
    /\ azauth.GetArmAuthorizer w c t = (Panic nilDereference, t)
    /\ azauth.SetAuthorizers w c t = (Panic nilDereference, t).
Proof.
  intros Handle w c resource client userAgent t Hnil.
  assert (Hres : forall r,
             azauth.GetAuthorizerForResource w c r t
             = (Panic nilDereference, t)).
  { intros r. unfold azauth.GetAuthorizerForResource. run.
    rewrite Hnil. reflexivity. }
  assert (Harm : azauth.GetArmAuthorizer w c t = (Panic nilDereference, t)).
  { unfold azauth.GetArmAuthorizer.
    destruct (azauth.armAuthorizer c) as [cached|].
    - run. rewrite Hnil. reflexivity.
    - unfold bind, deref. destruct (azauth.settings c) as [s|]; simpl.
      + apply Hres.
      + reflexivity. }
  split; [apply Hres|]. split.
  - apply binder_after_panic. apply Hres.
  - split; [exact Harm|].
    unfold azauth.SetAuthorizers, azauth.setArmAuthorizer, bind.
    rewrite Harm. reflexivity.
Qed.

Lemma no_logger_panics_witness :
  azauth.GetAuthorizerForResource
    (Scenario.world (Some "file-token") None None) Trouble.bare
    Scenario.vault []
  = (Panic nilDereference, [])
  /\ azauth.AuthorizeClientForResource
       (Scenario.world (Some "file-token") None None) Trouble.bare
       Scenario.vault Scenario.client "azauth" []
     = (Panic nilDereference, [])
  /\ azauth.GetArmAuthorizer
       (Scenario.world (Some "file-token") None None) Trouble.bare []
     = (Panic nilDereference, [])
  /\ azauth.SetAuthorizers
       (Scenario.world (Some "file-token") None None) Trouble.bare []
     = (Panic nilDereference, []).
Proof.
  exact (no_logger_panics string
           (Scenario.world (Some "file-token") None None) Trouble.bare
           Scenario.vault Scenario.client "azauth" [] eq_refl).
Defined.

(** An error of the lookup is the resolver's, met on an empty cache slot. *)
Lemma lookup_error {Handle : Type} (w : World Handle)
  (c : azauth.Config Handle) (t t1 : list event)
  (a : autorest.Authorizer Handle) (e : error) :
  azauth.GetArmAuthorizer w c t = (Done (a, Some e), t1) ->
  a = None /\ e = NoAuthorizerError /\ azauth.armAuthorizer c = None.
Proof.
  unfold azauth.GetArmAuthorizer.
  destruct (azauth.armAuthorizer c) as [cached|].
  - run. destruct (azauth.Sugar c); simpl; discriminate.
  - unfold bind, deref. destruct (azauth.settings c) as [s|]; simpl.
    + intros H.
      unfold azauth.GetAuthorizerForResource in H. revert H. run.
      destruct (azauth.Sugar c) as [sugar|]; simpl; [|discriminate].
      destruct (auth.file (ambient w) _) as [a0 [e0|]]; simpl;
        [|discriminate].
      destruct (auth.cli (ambient w) _) as [a1 [e1|]]; simpl;
        [|discriminate].
      destruct (auth.environment (ambient w) _) as [a2 [e2|]]; simpl;
        [|discriminate].
      intros H. inversion H; subst. repeat split.
    + discriminate.
Qed.

(** X4.  Failures are not cached.  When [SetAuthorizers] returns an error,
    the error is [NoAuthorizerError], the Config is left exactly as it was,
    and its cache slot was and stays empty. *)
Theorem SetAuthorizers_failure :
  forall (Handle : Type) (w : World Handle) (c c' : azauth.Config Handle)
         (t t1 : list event) (e : error),
    azauth.SetAuthorizers w c t = (Done (c', Some e), t1) ->
    c' = c
    /\ e = NoAuthorizerError
    /\ azauth.armAuthorizer c' = None
    /\ azauth.GetArmAuthorizer w c t
       = (Done (None, Some NoAuthorizerError), t1).
Proof.
  intros Handle w c c' t t1 e.
  unfold azauth.SetAuthorizers, azauth.setArmAuthorizer, bind.
  destruct (azauth.GetArmAuthorizer w c t) as [[[a [e0|]]|msg] t0] eqn:Hget;
    simpl; intros H; inversion H; subst.
  destruct (lookup_error _ _ _ _ _ _ Hget) as [Ha [He Harm]]. subst.
  repeat split; assumption.
Qed.

Lemma SetAuthorizers_failure_witness :
  Scenario.cfg = Scenario.cfg
  /\ NoAuthorizerError = NoAuthorizerError
  /\ azauth.armAuthorizer Scenario.cfg = None
  /\ azauth.GetArmAuthorizer (Scenario.world None None None) Scenario.cfg []
     = (Done (None, Some NoAuthorizerError),
        [Invoke FromFile Scenario.management;
         failed Scenario.sugar "file" (Foreign "auth file not found");
         Invoke FromCLI Scenario.management;
         failed Scenario.sugar "cli" (Foreign "az login required");
         Invoke FromEnvironment Scenario.management;
         failed Scenario.sugar "env" (Foreign "missing client secret")]).
Proof.
  exact (SetAuthorizers_failure string (Scenario.world None None None)
           Scenario.cfg Scenario.cfg [] _ NoAuthorizerError eq_refl).
Defined.

(** X5.  [SetAuthorizers] is idempotent: run again on the Config it has
    filled, it succeeds, leaves that Config as it is and asks no source. *)
Theorem SetAuthorizers_idempotent :
  forall (Handle : Type) (w : World Handle) (c c' : azauth.Config Handle)
         (t t1 t2 : list event),
    azauth.SetAuthorizers w c t = (Done (c', None), t1) ->
    exists t3,
      azauth.SetAuthorizers w c' t2 = (Done (c', None), t3)
      /\ invocations t3 = invocations t2.
Proof.
  intros Handle w c c' t t1 t2 H.
  destruct (SetAuthorizers_success _ _ _ _ _ H) as [a [Hget Hc']].
  destruct (looked_up_with_logger _ _ _ _ _ Hget) as [sugar Hsugar].
  exists (t2 ++ [hit sugar]). split.
  - unfold azauth.SetAuthorizers, azauth.setArmAuthorizer, bind.
    rewrite (cache_hit w c' a sugar t2); subst c'; try reflexivity.
    exact Hsugar.
  - rewrite invocations_app. simpl. apply app_nil_r.
Qed.

Lemma SetAuthorizers_idempotent_witness :
  exists t3,
    azauth.SetAuthorizers (Scenario.world None (Some "cli-token") None)
      (with_armAuthorizer Scenario.cfg (Some "cli-token")) []
    = (Done (with_armAuthorizer Scenario.cfg (Some "cli-token"), None), t3)
    /\ invocations t3 = invocations [].
Proof.
  exact (SetAuthorizers_idempotent string
           (Scenario.world None (Some "cli-token") None) Scenario.cfg
           (with_armAuthorizer Scenario.cfg (Some "cli-token")) [] _ []
           eq_refl).
Defined.

(** X6.  The lookup of the resource manager authorizer never asks a source
    for another resource than the resource manager endpoint of the
    settings, whatever the cache slot holds and whatever the sources
    answer. *)
Theorem lookup_asks_for_endpoint :
  forall (Handle : Type) (w : World Handle) (c : azauth.Config Handle)
         (s : auth.EnvironmentSettings) (t : list event),
    azauth.settings c = Some s ->
    exists evs,
      snd (azauth.GetArmAuthorizer w c t) = t ++ evs
      /\ Forall
           (fun i => snd i = azure.ResourceManagerEndpoint (auth.Environment s))
           (invocations evs).
Proof.
  intros Handle w c s t Hs. unfold azauth.GetArmAuthorizer.
  destruct (azauth.armAuthorizer c) as [cached|].
  - run. destruct (azauth.Sugar c) as [sugar|]; simpl.
    + eexists. split; [reflexivity|]. simpl. constructor.
    + exists []. rewrite app_nil_r. split; [reflexivity | constructor].
  - unfold bind, deref. rewrite Hs. simpl.
    apply resolver_passes_resource.
Qed.

Lemma lookup_asks_for_endpoint_witness :
  exists evs,
    snd (azauth.GetArmAuthorizer
           (Scenario.world None None (Some "env-token")) Scenario.cfg [])
    = [] ++ evs
    /\ Forall (fun i => snd i = Scenario.management) (invocations evs).
Proof.
  exact (lookup_asks_for_endpoint string
           (Scenario.world None None (Some "env-token")) Scenario.cfg
           Scenario.public [] eq_refl).
Defined.

(** X7.  With the settings loaded, [New] still needs the logger: the error
    of [zap.NewProduction] is returned with a nil Config whatever the
    options, and a nil logger that comes with a nil error makes [New]
    panic. *)
Theorem New_needs_logger :
  forall (Handle : Type) (w : World Handle) (s : auth.EnvironmentSettings)
         (opts : list (azauth.Option Handle)) (t : list event),
    auth.settings_of_environment (ambient w) = (s, None) ->
    (forall l e,
        production w = (l, Some e) ->
        azauth.New w opts t = (Done (None, Some e), t))
    /\ (production w = (None, None) ->
        azauth.New w opts t = (Panic nilDereference, t)).
Proof.
  intros Handle w s opts t Hs. split.
  - intros l e Hl. unfold azauth.New. run. rewrite Hs. simpl. rewrite Hl.
    reflexivity.
  - intros Hl. unfold azauth.New. run. rewrite Hs. simpl. rewrite Hl.
    reflexivity.
Qed.

Lemma New_needs_logger_witness :
  azauth.New Trouble.mute [azauth.UserAgent "operator"] []
  = (Done (None, Some (Foreign "cannot open sink")), []).
Proof.
  exact (proj1 (New_needs_logger string Trouble.mute Scenario.public
                  [azauth.UserAgent "operator"] [] eq_refl)
           None (Foreign "cannot open sink") eq_refl).
Defined.

Lemma range_opts_app {Handle : Type} (o1 o2 : list (azauth.Option Handle)) :
  forall (c : option (azauth.Config Handle)) (t : list event),
    azauth.range_opts (o1 ++ o2) c t
    = (c' <- azauth.range_opts o1 c ;; azauth.range_opts o2 c') t.
Proof.
  induction o1 as [|o o1 IH]; intros c t; simpl.
  - reflexivity.
  - unfold bind in *. destruct (o c t) as [[c'|msg] t1].
    + apply IH.
    + reflexivity.
Qed.

(** X8.  [New] returns the pointer that the last option returns.  When the
    options end on the nil pointer, [New] returns a nil Config together with
    a nil error; a [UserAgent] option placed after them panics on the nil
    pointer. *)
Theorem New_follows_options :
  forall (Handle : Type) (w : World Handle) (s : auth.EnvironmentSettings)
         (log : zap.Logger) (opts : list (azauth.Option Handle))
         (t t' : list event),
    auth.settings_of_environment (ambient w) = (s, None) ->
    production w = (Some log, None) ->
    azauth.range_opts opts (Some (defaults log s)) t = (Done None, t') ->
    azauth.New w opts t = (Done (None, None), t')
    /\ (forall ua rest,
        azauth.New w (opts ++ azauth.UserAgent ua :: rest) t
        = (Panic nilDereference, t')).
Proof.
  intros Handle w s log opts t t' Hs Hl Hnil. split.
  - rewrite (New_ranges_over_defaults w s log opts t Hs Hl).
    unfold bind. rewrite Hnil. reflexivity.
  - intros ua rest.
    rewrite (New_ranges_over_defaults w s log _ t Hs Hl).
    unfold bind at 1. rewrite range_opts_app.
    unfold bind at 1. rewrite Hnil. reflexivity.
Qed.

Lemma New_follows_options_witness :
  azauth.New (Scenario.world None None None)
    [azauth.UserAgent "operator"; Trouble.drop] []
  = (Done (None, None), [])
  /\ azauth.New (Scenario.world None None None)
       ([azauth.UserAgent "operator"; Trouble.drop]
          ++ [azauth.UserAgent "late"]) []
     = (Panic nilDereference, []).
Proof.
  split.
  - exact (proj1 (New_follows_options string (Scenario.world None None None)
             Scenario.public Scenario.logger
             [azauth.UserAgent "operator"; Trouble.drop] [] []
             eq_refl eq_refl eq_refl)).
  - exact (proj2 (New_follows_options string (Scenario.world None None None)
             Scenario.public Scenario.logger
             [azauth.UserAgent "operator"; Trouble.drop] [] []
             eq_refl eq_refl eq_refl) "late" []).
Defined.

(** X9.  What the error of the binder tells.  A non-nil error is never the
    resolver's: it is returned only after a successful resolution, for the
    empty user agent, and the authorizer is installed all the same.  A nil
    error is returned both when the resolution failed, the client being
    left alone, and when the authorizer was installed and the user agent
    appended. *)
Theorem binder_error_reading :
  forall (Handle : Type) (w : World Handle) (c : azauth.Config Handle)
         (resource : string) (client client' : autorest.Client Handle)
         (userAgent : string) (t t' : list event),
    (forall e,
        azauth.AuthorizeClientForResource w c resource client userAgent t
        = (Done (client', Some e), t') ->
        userAgent = EmptyString
        /\ e = Foreign ("Extension was empty, User Agent stayed as "
                          ++ autorest.Client_UserAgent client)
        /\ exists a,
            azauth.GetAuthorizerForResource w c resource t
            = (Done (a, None), t')
            /\ client' = with_Authorizer client a)
    /\ (azauth.AuthorizeClientForResource w c resource client userAgent t
        = (Done (client', None), t') ->
        (client' = client
         /\ azauth.GetAuthorizerForResource w c resource t
            = (Done (None, Some NoAuthorizerError), t'))
        \/ (userAgent <> EmptyString
            /\ exists a,
                azauth.GetAuthorizerForResource w c resource t
                = (Done (a, None), t')
                /\ client'
                   = autorest.mkClient a
                       (autorest.Client_UserAgent client ++ " "
                          ++ userAgent))).
Proof.
  intros Handle w c resource client client' userAgent t t'.
  destruct (azauth.GetAuthorizerForResource w c resource t)
    as [[[a [e0|]]|msg] t0] eqn:Hres.
  - destruct (resolver_error_is_aggregate _ _ _ _ _ _ _ _ Hres)
      as [Ha [He _]]. subst.
    rewrite (binder_after_failure _ _ _ _ _ _ _ _ _ Hres). split.
    + discriminate.
    + intros H. inversion H; subst. left. split; reflexivity.
  - rewrite (binder_after_success _ _ _ _ _ _ _ _ Hres).
    unfold autorest.AddToUserAgent.
    destruct (String.eqb_spec userAgent EmptyString) as [E|E]; split.
    + intros e H. inversion H; subst. repeat split. exists a.
      split; reflexivity.
    + discriminate.
    + discriminate.
    + intros H. inversion H; subst. right. split; [assumption|].
      exists a. split; reflexivity.
  - rewrite (binder_after_panic _ _ _ _ _ _ _ _ Hres).
    split; [intros e|]; discriminate.
Qed.

Lemma binder_error_reading_witness :
  (EmptyString = EmptyString
   /\ Foreign "Extension was empty, User Agent stayed as Go/go1.13 azure-sdk"
      = Foreign ("Extension was empty, User Agent stayed as "
                   ++ autorest.Client_UserAgent Scenario.client)
   /\ exists a,
       azauth.GetAuthorizerForResource
         (Scenario.world (Some "file-token") None None) Scenario.cfg
         Scenario.vault []
       = (Done (a, None),
          [Invoke FromFile Scenario.vault; ok Scenario.sugar "file"])
       /\ autorest.mkClient (Some "file-token") "Go/go1.13 azure-sdk"
          = with_Authorizer Scenario.client a)
  /\ ((Scenario.client = Scenario.client
       /\ azauth.GetAuthorizerForResource (Scenario.world None None None)
            Scenario.cfg Scenario.vault []
          = (Done (None, Some NoAuthorizerError),
             [Invoke FromFile Scenario.vault;
              failed Scenario.sugar "file" (Foreign "auth file not found");
              Invoke FromCLI Scenario.vault;
              failed Scenario.sugar "cli" (Foreign "az login required");
              Invoke FromEnvironment Scenario.vault;
              failed Scenario.sugar "env" (Foreign "missing client secret")]))
      \/ ("azauth" <> EmptyString
          /\ exists a,
              azauth.GetAuthorizerForResource (Scenario.world None None None)
                Scenario.cfg Scenario.vault []
              = (Done (a, None),
                 [Invoke FromFile Scenario.vault;
                  failed Scenario.sugar "file" (Foreign "auth file not found");
                  Invoke FromCLI Scenario.vault;
                  failed Scenario.sugar "cli" (Foreign "az login required");
                  Invoke FromEnvironment Scenario.vault;
                  failed Scenario.sugar "env"
                    (Foreign "missing client secret")])
              /\ Scenario.client
                 = autorest.mkClient a
                     (autorest.Client_UserAgent Scenario.client ++ " "
                        ++ "azauth"))).
Proof.
  split.
  - exact (proj1 (binder_error_reading string
             (Scenario.world (Some "file-token") None None) Scenario.cfg
             Scenario.vault Scenario.client
             (autorest.mkClient (Some "file-token") "Go/go1.13 azure-sdk")
             EmptyString [] _) _ eq_refl).
  - exact (proj2 (binder_error_reading string
             (Scenario.world None None None) Scenario.cfg
             Scenario.vault Scenario.client Scenario.client
             "azauth" [] _) eq_refl).
Defined.

Lemma string_app_assoc (a b c : string) :
  ((a ++ b) ++ c = a ++ (b ++ c))%string.
Proof.
  induction a as [|ch a IH]; simpl.
  - reflexivity.
  - rewrite IH. reflexivity.
Qed.

(** X10.  Binding twice piles up.  After two successful bindings with user
    agents that are not empty, the client holds the authorizer of the
    second resolution, and its user agent has gained both user agents, in
    the order of the calls. *)
Theorem binder_twice :
  forall (Handle : Type) (w : World Handle) (c : azauth.Config Handle)
         (r1 r2 ua1 ua2 : string) (client : autorest.Client Handle)
         (t t1 t2 : list event) (a1 a2 : autorest.Authorizer Handle),
    azauth.GetAuthorizerForResource w c r1 t = (Done (a1, None), t1) ->
    azauth.GetAuthorizerForResource w c r2 t1 = (Done (a2, None), t2) ->
    ua1 <> EmptyString ->
    ua2 <> EmptyString ->
    exists client1,
      azauth.AuthorizeClientForResource w c r1 client ua1 t
      = (Done (client1, None), t1)
      /\ azauth.AuthorizeClientForResource w c r2 client1 ua2 t1
         = (Done (autorest.mkClient a2
                    (autorest.Client_UserAgent client ++ " " ++ ua1
                       ++ " " ++ ua2), None), t2).
Proof.
  intros Handle w c r1 r2 ua1 ua2 client t t1 t2 a1 a2 H1 H2 Hua1 Hua2.
  eexists. split.
  - rewrite (binder_after_success _ _ _ _ _ _ _ _ H1).
    apply AddToUserAgent_extension. assumption.
  - rewrite (binder_after_success _ _ _ _ _ _ _ _ H2).
    rewrite AddToUserAgent_extension by assumption. simpl.
    rewrite string_app_assoc. reflexivity.
Qed.

Lemma binder_twice_witness :
  exists client1,
    azauth.AuthorizeClientForResource
      (Scenario.world (Some "file-token") None None) Scenario.cfg
      Scenario.management Scenario.client "azauth" []
    = (Done (client1, None),
       [Invoke FromFile Scenario.management; ok Scenario.sugar "file"])
    /\ azauth.AuthorizeClientForResource
         (Scenario.world (Some "file-token") None None) Scenario.cfg
         Scenario.vault client1 "operator"
         [Invoke FromFile Scenario.management; ok Scenario.sugar "file"]
       = (Done (autorest.mkClient (Some "file-token")
                  (autorest.Client_UserAgent Scenario.client ++ " "
                     ++ "azauth" ++ " " ++ "operator"), None),
          [Invoke FromFile Scenario.management; ok Scenario.sugar "file";
           Invoke FromFile Scenario.vault; ok Scenario.sugar "file"]).
Proof.
  refine (binder_twice string (Scenario.world (Some "file-token") None None)
            Scenario.cfg Scenario.management Scenario.vault
            "azauth" "operator" Scenario.client [] _ _
            (Some "file-token") (Some "file-token") eq_refl eq_refl _ _);
    discriminate.
Defined.

(** X11.  Of the Config, the resolver and the binder read the sugared
    logger and nothing else: two Configs with the same logger behave alike,
    whatever their user agent, their settings and their cache slot are.  In
    particular the binder resolves anew even when the cache slot is
    filled. *)
Theorem resolver_reads_logger_only :
  forall (Handle : Type) (w : World Handle) (c c' : azauth.Config Handle)
         (resource : string) (client : autorest.Client Handle)
         (userAgent : string) (t : list event),
    azauth.Sugar c = azauth.Sugar c' ->
    azauth.GetAuthorizerForResource w c resource t
    = azauth.GetAuthorizerForResource w c' resource t
    /\ azauth.AuthorizeClientForResource w c resource client userAgent t
       = azauth.AuthorizeClientForResource w c' resource client userAgent t.
Proof.
  intros Handle w c c' resource client userAgent t H.
  assert (Hres : azauth.GetAuthorizerForResource w c resource t
                 = azauth.GetAuthorizerForResource w c' resource t).
  { unfold azauth.GetAuthorizerForResource. rewrite H. reflexivity. }
  split; [exact Hres|].
  unfold azauth.AuthorizeClientForResource, bind. rewrite Hres. reflexivity.
Qed.

Lemma resolver_reads_logger_only_witness :
  azauth.GetAuthorizerForResource (Scenario.world None None (Some "env-token"))
    Scenario.cfg Scenario.management []
  = azauth.GetAuthorizerForResource
      (Scenario.world None None (Some "env-token"))
      (with_armAuthorizer Scenario.cfg (Some "stale-token"))
      Scenario.management []
  /\ azauth.AuthorizeClientForResource
       (Scenario.world None None (Some "env-token"))
       Scenario.cfg Scenario.management Scenario.client "azauth" []
     = azauth.AuthorizeClientForResource
         (Scenario.world None None (Some "env-token"))
         (with_armAuthorizer Scenario.cfg (Some "stale-token"))
         Scenario.management Scenario.client "azauth" [].
Proof.
  exact (resolver_reads_logger_only string
           (Scenario.world None None (Some "env-token")) Scenario.cfg
           (with_armAuthorizer Scenario.cfg (Some "stale-token"))
           Scenario.management Scenario.client "azauth" [] eq_refl).
Defined.

(** * Properties of the earlier revisions *)

(** X12.  In the revision with the log, the file-only binder does not
    depend on the resource it is given: it asks the file for the resource
    manager endpoint of its Config and, with a user agent that is not empty,
    installs what the file gives for that endpoint. *)
Theorem logged_file_binder_ignores_resource :
  forall (Handle : Type) (w : World Handle) (c : azauth_logged.Config)
         (sugar : zap.SugaredLogger) (env : azure.Environment)
         (client : autorest.Client Handle) (a : autorest.Authorizer Handle)
         (t : list event),
    azauth_logged.Sugar c = Some sugar ->
    azauth_logged.env c = Some env ->
    auth.file (ambient w) (azure.ResourceManagerEndpoint env) = (a, None) ->
    azauth_logged.userAgent c <> EmptyString ->
    forall resource,
      azauth_logged_rest.AuthorizeClientFromFileForResource w c client
        resource t
      = (Done (autorest.mkClient a
                 (autorest.Client_UserAgent client ++ " "
                    ++ azauth_logged.userAgent c), None),
         t ++ [Invoke FromFile (azure.ResourceManagerEndpoint env);
               ok sugar "file"]).
Proof.
  intros Handle w c sugar env client a t Hsugar Henv Hfile Hua resource.
  unfold azauth_logged_rest.AuthorizeClientFromFileForResource,
    azauth_logged.GetFileAuthorizerForResource.
  run. rewrite Hsugar. simpl. rewrite Henv. simpl. rewrite Hfile. simpl.
  rewrite AddToUserAgent_extension by assumption. simpl. trace.
  reflexivity.
Qed.

Lemma logged_file_binder_ignores_resource_witness :
  azauth_logged_rest.AuthorizeClientFromFileForResource
    (Scenario.world (Some "file-token") None None) Scenario.logged_cfg
    Scenario.client Scenario.vault []
  = (Done (autorest.mkClient (Some "file-token")
             "Go/go1.13 azure-sdk azauth", None),
     [Invoke FromFile Scenario.management; ok Scenario.sugar "file"]).
Proof.
  refine (logged_file_binder_ignores_resource string
            (Scenario.world (Some "file-token") None None)
            Scenario.logged_cfg Scenario.sugar
            (azure.mkEnvironment Scenario.management) Scenario.client
            (Some "file-token") [] eq_refl eq_refl eq_refl _ Scenario.vault).
  discriminate.
Defined.

(** X13.  Moving the calls of the SDK into resolver methods changed
    nothing: the binders of the first revision, which go through
    [GetAuthorizerForResource] and [GetFileAuthorizerForResource], and the
    binders of the revision that calls the SDK itself return the same
    client and error and leave the same trace, on every input. *)
Theorem first_binders_agree_with_direct :
  forall (Handle : Type) (w : World Handle) (c : azauth_first.Config)
         (client : autorest.Client Handle) (resource : string)
         (t : list event),
    azauth_first_rest.AuthorizeClientForResource w c client resource t
    = azauth_direct.AuthorizeClientForResource w c client resource t
    /\ azauth_first_rest.AuthorizeClientFromFileForResource w c client
         resource t
       = azauth_direct.AuthorizeClientFromFileForResource w c client
           resource t.
Proof.
  intros Handle w c client resource t. split; reflexivity.
Qed.

(** X14.  The latest resolver extends the one of the revision with the log.
    When the file and the CLI session fail, it ends as that revision's
    [GetAuthorizerForResource] does: the same authorizer and error, and the
    same events after the four that the two failures leave. *)
Theorem resolver_extends_logged :
  forall (Handle : Type) (w : World Handle) (c : azauth.Config Handle)
         (old : azauth_logged.Config) (sugar : zap.SugaredLogger)
         (resource : string) (t u : list event)
         (a0 a1 : autorest.Authorizer Handle) (e0 e1 : error),
    azauth.Sugar c = Some sugar ->
    azauth_logged.Sugar old = Some sugar ->
    auth.file (ambient w) resource = (a0, Some e0) ->
    auth.cli (ambient w) resource = (a1, Some e1) ->
    exists r evs,
      azauth.GetAuthorizerForResource w c resource t
      = (Done r,
         t ++ [Invoke FromFile resource; failed sugar "file" e0;
               Invoke FromCLI resource; failed sugar "cli" e1] ++ evs)
      /\ azauth_logged_rest.GetAuthorizerForResource w old resource u
         = (Done r, u ++ evs).
Proof.
  intros Handle w c old sugar resource t u a0 a1 e0 e1 Hc Hold Hf Hcli.
  destruct (auth.environment (ambient w) resource) as [a2 [e2|]] eqn:He.
  - exists (None, Some NoAuthorizerError). eexists. split.
    + rewrite (resolve_none w c sugar Hc resource t a0 a1 a2 e0 e1 e2 Hf Hcli He).
      reflexivity.
    + unfold azauth_logged_rest.GetAuthorizerForResource. run.
      rewrite Hold. simpl. rewrite He. simpl. trace. reflexivity.
  - exists (a2, None). eexists. split.
    + rewrite (resolve_environment w c sugar Hc resource t a0 a1 a2 e0 e1 Hf
                 Hcli He).
      reflexivity.
    + unfold azauth_logged_rest.GetAuthorizerForResource. run.
      rewrite Hold. simpl. rewrite He. simpl. trace. reflexivity.
Qed.

Lemma resolver_extends_logged_witness :
  exists r evs,
    azauth.GetAuthorizerForResource
      (Scenario.world None None (Some "env-token")) Scenario.cfg
      Scenario.vault []
    = (Done r,
       [] ++ [Invoke FromFile Scenario.vault;
              failed Scenario.sugar "file" (Foreign "auth file not found");
              Invoke FromCLI Scenario.vault;
              failed Scenario.sugar "cli" (Foreign "az login required")]
          ++ evs)
    /\ azauth_logged_rest.GetAuthorizerForResource
         (Scenario.world None None (Some "env-token")) Scenario.logged_cfg
         Scenario.vault []
       = (Done r, [] ++ evs).
Proof.
  exact (resolver_extends_logged string
           (Scenario.world None None (Some "env-token")) Scenario.cfg
           Scenario.logged_cfg Scenario.sugar Scenario.vault [] []
           None None (Foreign "auth file not found")
           (Foreign "az login required") eq_refl eq_refl eq_refl eq_refl).
Defined.

(** A run of [UserAgent] options of the first revision leaves the Config
    with the last of them. *)
Lemma first_range_UserAgent (uas : list string) :
  forall (c : azauth_first.Config) (t : list event),
    azauth_first_rest.range_opts (map azauth_first_rest.UserAgent uas) c t
    = (Done (azauth_first.mkConfig (last uas (azauth_first.userAgent c))
               (azauth_first.env c)), t).
Proof.
  induction uas as [|ua uas IH]; intros c t.
  - destruct c; reflexivity.
  - rewrite last_cons. simpl. unfold bind. simpl. rewrite IH. reflexivity.
Qed.

(** X15.  In the first revision the user agent of the Config is the one the
    binder uses.  A Config built with [UserAgent] options has the last of
    them (or "azauth" without options) as its user agent, and, when the
    environment has a credential for the resource and that user agent is
    not empty, the binder installs the authorizer and appends that user
    agent to the client's. *)
Theorem first_binder_uses_last_option :
  forall (Handle : Type) (w : World Handle) (s : auth.EnvironmentSettings)
         (uas : list string) (client : autorest.Client Handle)
         (resource : string) (a : autorest.Authorizer Handle)
         (t : list event),
    auth.settings_of_environment (ambient w) = (s, None) ->
    auth.environment (ambient w) resource = (a, None) ->
    last uas "azauth" <> EmptyString ->
    exists c,
      azauth_first_rest.New w (map azauth_first_rest.UserAgent uas) t
      = (Done (Some c, None), t)
      /\ azauth_first.userAgent c = last uas "azauth"
      /\ azauth_first_rest.AuthorizeClientForResource w c client resource t
         = (Done (autorest.mkClient a
                    (autorest.Client_UserAgent client ++ " "
                       ++ last uas "azauth"), None),
            t ++ [Invoke FromEnvironment resource]).
Proof.
  intros Handle w s uas client resource a t Hs He Hua.
  eexists. split; [|split].
  - unfold azauth_first_rest.New. run. rewrite Hs. simpl.
    unfold bind. rewrite first_range_UserAgent. reflexivity.
  - reflexivity.
  - unfold azauth_first_rest.AuthorizeClientForResource,
      azauth_first_rest.GetAuthorizerForResource.
    run. rewrite He. simpl.
    rewrite AddToUserAgent_extension by assumption. reflexivity.
Qed.

Lemma first_binder_uses_last_option_witness :
  exists c,
    azauth_first_rest.New (Scenario.world None None (Some "env-token"))
      (map azauth_first_rest.UserAgent ["first"; "last"]) []
    = (Done (Some c, None), [])
    /\ azauth_first.userAgent c = last ["first"; "last"] "azauth"
    /\ azauth_first_rest.AuthorizeClientForResource
         (Scenario.world None None (Some "env-token")) c Scenario.client
         Scenario.vault []
       = (Done (autorest.mkClient (Some "env-token")
                  (autorest.Client_UserAgent Scenario.client ++ " "
                     ++ last ["first"; "last"] "azauth"), None),
          [] ++ [Invoke FromEnvironment Scenario.vault]).
Proof.
  refine (first_binder_uses_last_option string
            (Scenario.world None None (Some "env-token")) Scenario.public
            ["first"; "last"] Scenario.client Scenario.vault
            (Some "env-token") [] eq_refl eq_refl _).
  discriminate.
Defined.



(** X17.  The revisions disagree on the error of a construction in which
    both the logger and the settings fail: [New] of the revision with the
    log opens the logger first and returns its error, [New] of the latest
    revision loads the settings first and returns theirs.  Neither returns a
    Config, whatever the options. *)
Theorem New_error_order :
  forall (Handle : Type) (w : World Handle) (l : option zap.Logger)
         (s : auth.EnvironmentSettings) (e_log e_settings : error)
         (old_opts : list azauth_logged_rest.Option)
         (opts : list (azauth.Option Handle)) (t : list event),
    production w = (l, Some e_log) ->
    auth.settings_of_environment (ambient w) = (s, Some e_settings) ->
    azauth_logged_rest.New w old_opts t = (Done (None, Some e_log), t)
    /\ azauth.New w opts t = (Done (None, Some e_settings), t).
Proof.
  intros Handle w l s e_log e_settings old_opts opts t Hl Hs. split.
  - unfold azauth_logged_rest.New. run. rewrite Hl. reflexivity.
  - unfold azauth.New. run. rewrite Hs. reflexivity.
Qed.

Lemma New_error_order_witness :
  azauth_logged_rest.New Trouble.mute_unsettled
    [azauth_logged_rest.UserAgent "operator"] []
  = (Done (None, Some (Foreign "cannot open sink")), [])
  /\ azauth.New Trouble.mute_unsettled [azauth.UserAgent "operator"] []
     = (Done (None, Some (Foreign "unknown cloud")), []).
Proof.
  exact (New_error_order string Trouble.mute_unsettled None Scenario.public
           (Foreign "cannot open sink") (Foreign "unknown cloud")
           [azauth_logged_rest.UserAgent "operator"]
           [azauth.UserAgent "operator"] [] eq_refl eq_refl).
Defined.
